(** * Farmverse: the Markdown line classifier of [scripts/convert_to_docx.py]

    A shallow embedding of the loop of [convert_markdown_to_docx] and of
    [setup_document_styles], and the properties of the line classification
    and of the style setup.

    The loop is given twice.  [process_line] is the loop as far as its own
    code goes: the flag, the buffer and the paragraph each line hands to
    the document library.  [run_line] is the same iteration with the check
    the library makes on the text it is handed, which can raise; a
    conversion that completes leaves the state [process_lines] computes
    ([run_lines_spec]).

    Characters are code points.  The model covers the code points below
    256 (one [ascii] each); on that range Python's [str.isspace] and the
    regular-expression class [\d] are the tables [is_space] and
    [is_digit] below.

    The document under construction is the list of the paragraphs added
    to it, oldest first: every [doc.add_heading] / [doc.add_paragraph]
    call of the source that returns appends one [Block]. *)

From Stdlib Require Import String Ascii List Bool Arith Lia.
Import ListNotations.
Open Scope string_scope.
Open Scope list_scope.

(** ** Python string primitives *)

(** The newline character, ['\n']. *)
Definition nl : string := String (ascii_of_nat 10) "".

(** [s.startswith(p)]. *)
Fixpoint startswith (s p : string) {struct p} : bool :=
  match p with
  | "" => true
  | String a p' =>
      match s with
      | "" => false
      | String b s' => Ascii.eqb a b && startswith s' p'
      end
  end.

(** [s[n:]]. *)
Fixpoint drop (n : nat) (s : string) : string :=
  match n, s with
  | 0, _ => s
  | S _, "" => ""
  | S k, String _ r => drop k r
  end.

(** [sub in s]. *)
Fixpoint contains (sub s : string) : bool :=
  startswith s sub ||
  match s with
  | "" => false
  | String _ r => contains sub r
  end.

(** Puts a character in front of the first piece of a split. *)
Definition cons_head (c : ascii) (ps : list string) : list string :=
  match ps with
  | [] => [String c ""]
  | p :: ps' => String c p :: ps'
  end.

(** [s.split(sep)] for a non-empty [sep]: the scan goes left to right and
    the occurrences of [sep] it cuts at do not overlap.  Each step
    consumes at least one character, so [length s] steps are enough. *)
Fixpoint split_fuel (fuel : nat) (sep s : string) : list string :=
  match fuel with
  | 0 => [s]
  | S f =>
      match s with
      | "" => [""]
      | String c r =>
          if startswith s sep
          then "" :: split_fuel f sep (drop (String.length sep - 1) r)
          else cons_head c (split_fuel f sep r)
      end
  end.

Definition split (sep s : string) : list string :=
  split_fuel (String.length s) sep s.

(** [s.count(sep)] for a non-empty [sep]: occurrences met by the same
    left-to-right scan, without overlap. *)
Fixpoint count_fuel (fuel : nat) (sep s : string) : nat :=
  match fuel with
  | 0 => 0
  | S f =>
      match s with
      | "" => 0
      | String c r =>
          if startswith s sep
          then S (count_fuel f sep (drop (String.length sep - 1) r))
          else count_fuel f sep r
      end
  end.

Definition count (sep s : string) : nat :=
  count_fuel (String.length s) sep s.

(** [sep.join(ls)]. *)
Definition join (sep : string) (ls : list string) : string :=
  String.concat sep ls.

(** [s.find(' ')], when the character occurs ([find] is -1 otherwise). *)
Fixpoint find_space (s : string) : option nat :=
  match s with
  | "" => None
  | String c r =>
      if Ascii.eqb c " " then Some 0
      else option_map S (find_space r)
  end.

(** [str.isspace] on one character. *)
Definition is_space (c : ascii) : bool :=
  let n := nat_of_ascii c in
  (((9 <=? n) && (n <=? 13)) || ((28 <=? n) && (n <=? 32))
   || (n =? 133) || (n =? 160))%nat.

(** [\d] on one character. *)
Definition is_digit (c : ascii) : bool :=
  let n := nat_of_ascii c in ((48 <=? n) && (n <=? 57))%nat.

Fixpoint lstrip (s : string) : string :=
  match s with
  | "" => ""
  | String c r => if is_space c then lstrip r else s
  end.

Fixpoint rstrip (s : string) : string :=
  match s with
  | "" => ""
  | String c r =>
      match rstrip r with
      | "" => if is_space c then "" else String c ""
      | r' => String c r'
      end
  end.

(** [s.strip()]. *)
Definition strip (s : string) : string := rstrip (lstrip s).

(** Truth value of a string: non-empty. *)
Definition truthy (s : string) : bool :=
  match s with "" => false | _ => true end.

Fixpoint skip_digits (s : string) : string :=
  match s with
  | "" => ""
  | String c r => if is_digit c then skip_digits r else s
  end.

(** [re.match(r'^\d+\. ', line)] succeeds. *)
Definition match_numbered (line : string) : bool :=
  match line with
  | "" => false
  | String c r => is_digit c && startswith (skip_digits r) ". "
  end.

(** Every character of [s] satisfies [f]. *)
Fixpoint all_chars (f : ascii -> bool) (s : string) : bool :=
  match s with
  | "" => true
  | String c r => f c && all_chars f r
  end.

(** ** The document *)

(** One constructor per kind of paragraph the loop adds.  Fonts, styles and
    alignment (the level-1 heading and the rule are centred, the rule's
    text is fifty underscores) belong to the rendering and are fixed by
    the constructor. *)
Inductive Block : Type :=
| Heading (level : nat) (text : string)        (* doc.add_heading(text, level) *)
| Rule                                         (* doc.add_paragraph('_' * 50) *)
| MixedParagraph (runs : list (string * bool)) (* add_paragraph() + add_run each, bold or not *)
| BulletItem (text : string)                   (* add_paragraph(text, style='List Bullet') *)
| NumberedItem (text : string)                 (* add_paragraph(text, style='List Number') *)
| CodeBlock (text : string)                    (* add_paragraph() + one run, style 'Quote' *)
| Paragraph (text : string)                    (* doc.add_paragraph(line) *)
| BlankLine.                                   (* doc.add_paragraph() *)

(** The loop's variables. *)
Record state : Type := mkState {
  doc : list Block;
  in_code_block : bool;
  code_block_content : list string
}.

Definition init : state := mkState [] false [].

(** [for i, part in enumerate(parts)]: the run of index [i] is bold when
    [i % 2] is not 0. *)
Fixpoint runs_from (i : nat) (parts : list string) : list (string * bool) :=
  match parts with
  | [] => []
  | p :: ps => (p, negb (i mod 2 =? 0)%nat) :: runs_from (S i) ps
  end.

Definition bold_runs (line : string) : list (string * bool) :=
  runs_from 0 (split "**" line).

(** The [if]/[elif] chain of lines 57-96, for a line that reached it. *)
Definition classify (line : string) : Block :=
  if startswith line "# " then Heading 1 (drop 2 line)
  else if startswith line "## " then Heading 2 (drop 3 line)
  else if startswith line "### " then Heading 3 (drop 4 line)
  else if startswith line "#### " then Heading 4 (drop 5 line)
  else if startswith line "---" then Rule
  else if contains "**" line then MixedParagraph (bold_runs line)
  else if startswith line "- " then BulletItem (drop 2 line)
  else if match_numbered line then
    NumberedItem (drop (match find_space line with
                        | Some k => k + 1
                        | None => 0
                        end) line)
  else if truthy (strip line) then Paragraph line
  else BlankLine.

(** One iteration of the loop as far as the loop's own code goes: the new
    flag and buffer, and the paragraph handed to the document library,
    each library call taken to return. *)
Definition process_line (st : state) (line : string) : state :=
  if startswith line "```" then
    if in_code_block st then
      mkState
        (match code_block_content st with
         | [] => doc st
         | _ :: _ => doc st ++ [CodeBlock (join nl (code_block_content st))]
         end)
        false []
    else mkState (doc st) true (code_block_content st)
  else if in_code_block st then
    mkState (doc st) true (code_block_content st ++ [line])
  else
    mkState (doc st ++ [classify line]) false (code_block_content st).

Definition process_lines (st : state) (lines : list string) : state :=
  fold_left process_line lines st.

(** The paragraphs the loop hands to the library for the file's content. *)
Definition convert_markdown_to_docx (md_content : string) : list Block :=
  doc (process_lines init (split nl md_content)).

(** ** The document library's check *)

(** The text of a heading, of a paragraph and of a run goes into the XML of
    the document.  A tab, a newline and a carriage return become tab and
    break elements; any other character below 32 is refused with
    [ValueError]. *)
Definition xml_char (c : ascii) : bool :=
  let n := nat_of_ascii c in
  ((n =? 9) || (n =? 10) || (n =? 13) || (32 <=? n))%nat.

Definition xml_text (s : string) : bool := all_chars xml_char s.

Inductive error : Type :=
| ValueError
| KeyError.

Inductive result (A : Type) : Type :=
| Ok (a : A)
| Raise (e : error).

Arguments Ok {A} a.
Arguments Raise {A} e.

(** Whether the library accepts every text of a block.  The rule's text is
    a constant and a blank paragraph has none. *)
Definition block_ok (b : Block) : bool :=
  match b with
  | Heading _ t => xml_text t
  | Rule => true
  | MixedParagraph runs => forallb (fun r => xml_text (fst r)) runs
  | BulletItem t => xml_text t
  | NumberedItem t => xml_text t
  | CodeBlock t => xml_text t
  | Paragraph t => xml_text t
  | BlankLine => true
  end.

(** One [doc.add_heading] or [doc.add_paragraph] call with the [add_run]
    calls that belong to it: the paragraph is added, or the call raises. *)
Definition add_block (b : Block) (d : list Block) : result (list Block) :=
  if block_ok b then Ok (d ++ [b]) else Raise ValueError.

(** One iteration of the loop, with the library's check. *)
Definition run_line (st : state) (line : string) : result state :=
  if startswith line "```" then
    if in_code_block st then
      match code_block_content st with
      | [] => Ok (mkState (doc st) false [])
      | _ :: _ =>
          match add_block (CodeBlock (join nl (code_block_content st)))
                          (doc st) with
          | Ok d => Ok (mkState d false [])
          | Raise e => Raise e
          end
      end
    else Ok (mkState (doc st) true (code_block_content st))
  else if in_code_block st then
    Ok (mkState (doc st) true (code_block_content st ++ [line]))
  else
    match add_block (classify line) (doc st) with
    | Ok d => Ok (mkState d false (code_block_content st))
    | Raise e => Raise e
    end.

(** The loop: an exception ends it. *)
Fixpoint run_lines (st : state) (lines : list string) : result state :=
  match lines with
  | [] => Ok st
  | l :: ls =>
      match run_line st l with
      | Ok st' => run_lines st' ls
      | Raise e => Raise e
      end
  end.

(** The document built from the file's content, or the exception. *)
Definition run_convert (md_content : string) : result (list Block) :=
  match run_lines init (split nl md_content) with
  | Ok st => Ok (doc st)
  | Raise e => Raise e
  end.

(** ** Styles *)

(** The font of a style; [None] is an attribute that is not set.  Sizes
    are in points, [Pt(n)]. *)
Record font : Type := mkFont {
  font_name : option string;
  font_size : option nat;
  font_bold : option bool
}.

(** The styles of a document are objects, numbered here; [fonts] gives the
    font of each. *)
Definition fonts : Type := nat -> font.

(** [font.name = nm; font.size = Pt(sz); font.bold = True]. *)
Definition name_size_bold (nm : string) (sz : nat) (ft : font) : font :=
  mkFont (Some nm) (Some sz) (Some true).

(** [font.name = nm; font.size = Pt(sz)]. *)
Definition name_size (nm : string) (sz : nat) (ft : font) : font :=
  mkFont (Some nm) (Some sz) (font_bold ft).

(** Statements in sequence: an exception ends the sequence and leaves the
    fonts as they are by then. *)
Definition seq (m1 m2 : fonts -> fonts * option error) (fs : fonts)
  : fonts * option error :=
  match m1 fs with
  | (fs', None) => m2 fs'
  | (fs', Some e) => (fs', Some e)
  end.

Notation "m1 ;; m2" := (seq m1 m2) (at level 61, right associativity).

Section Styles.

(** [doc.styles[key]]: the style object the library finds for a key, by
    name and failing that by style id, or none, when the lookup raises
    [KeyError].  What a key finds does not depend on the fonts. *)
Variable resolve : string -> option nat.

(** [sty = doc.styles[key]] and the assignments [f] to [sty.font]. *)
Definition style_font (key : string) (f : font -> font) (fs : fonts)
  : fonts * option error :=
  match resolve key with
  | None => (fs, Some KeyError)
  | Some r => (fun x => if Nat.eqb x r then f (fs r) else fs x, None)
  end.

Definition setup_document_styles : fonts -> fonts * option error :=
  style_font "Title" (name_size_bold "Arial" 24) ;;
  style_font "Heading 1" (name_size_bold "Arial" 18) ;;
  style_font "Heading 2" (name_size_bold "Arial" 16) ;;
  style_font "Heading 3" (name_size_bold "Arial" 14) ;;
  style_font "Normal" (name_size "Arial" 11) ;;
  style_font "List Bullet" (name_size "Arial" 11) ;;
  style_font "List Number" (name_size "Arial" 11).

End Styles.

(** The keys [setup_document_styles] looks up, in its order. *)
Definition styled_names : list string :=
  ["Title"; "Heading 1"; "Heading 2"; "Heading 3"; "Normal"; "List Bullet";
   "List Number"].

(** The keys whose styles are made bold. *)
Definition bold_names : list string :=
  ["Title"; "Heading 1"; "Heading 2"; "Heading 3"].

(** A document for the examples: the seven keys find the styles 0 to 6,
    ['Quote'] finds style 7, no other key finds a style. *)
Definition sample_resolve (key : string) : option nat :=
  if String.eqb key "Title" then Some 0
  else if String.eqb key "Heading 1" then Some 1
  else if String.eqb key "Heading 2" then Some 2
  else if String.eqb key "Heading 3" then Some 3
  else if String.eqb key "Normal" then Some 4
  else if String.eqb key "List Bullet" then Some 5
  else if String.eqb key "List Number" then Some 6
  else if String.eqb key "Quote" then Some 7
  else None.

Definition sample_fonts : fonts :=
  fun _ => mkFont (Some "Calibri") None (Some false).

(** ** Predicates and inputs of the statements *)

(** The paragraph an iteration hands to the library, if any. *)
Definition call (st : state) (line : string) : list Block :=
  if startswith line "```" then
    if in_code_block st then
      match code_block_content st with
      | [] => []
      | _ :: _ => [CodeBlock (join nl (code_block_content st))]
      end
    else []
  else if in_code_block st then [] else [classify line].

(** The paragraphs a run of the loop hands to the library, in order. *)
Fixpoint calls (st : state) (lines : list string) : list Block :=
  match lines with
  | [] => []
  | l :: ls => call st l ++ calls (process_line st l) ls
  end.

(** The number of fence lines. *)
Definition fence_count (lines : list string) : nat :=
  List.length (filter (fun l => startswith l "```") lines).

(** No fence line. *)
Definition no_fence (lines : list string) : Prop :=
  Forall (fun l => startswith l "```" = false) lines.

(** The buffer is empty whenever no fence is open. *)
Definition buffer_inv (st : state) : Prop :=
  in_code_block st = false -> code_block_content st = [].

(** No heading, list item, bold text or fence on the line. *)
Definition plain_as_claimed (line : string) : bool :=
  negb (startswith line "```")
  && negb (startswith line "# ") && negb (startswith line "## ")
  && negb (startswith line "### ") && negb (startswith line "#### ")
  && negb (contains "**" line)
  && negb (startswith line "- ") && negb (match_numbered line).

(** The same, and no rule either. *)
Definition plain_line (line : string) : bool :=
  plain_as_claimed line && negb (startswith line "---").

(** The block of a plain line. *)
Definition plain_block (line : string) : Block :=
  if all_chars is_space line then BlankLine else Paragraph line.

(** [n] hash marks. *)
Fixpoint hashes (n : nat) : string :=
  match n with
  | 0 => ""
  | S k => String "#" (hashes k)
  end.

(** What a block says about the line it was made from: one rule per
    branch of the [if]/[elif] chain, with the conditions under which the
    branch is reached. *)
Inductive classified (line : string) : Block -> Prop :=
| cl_heading1 t : line = ("# " ++ t)%string -> classified line (Heading 1 t)
| cl_heading2 t : line = ("## " ++ t)%string -> classified line (Heading 2 t)
| cl_heading3 t : line = ("### " ++ t)%string -> classified line (Heading 3 t)
| cl_heading4 t : line = ("#### " ++ t)%string -> classified line (Heading 4 t)
| cl_rule :
    startswith line "---" = true -> classified line Rule
| cl_bold :
    contains "**" line = true -> startswith line "---" = false ->
    classified line (MixedParagraph (bold_runs line))
| cl_bullet t :
    line = ("- " ++ t)%string -> contains "**" line = false ->
    classified line (BulletItem t)
| cl_numbered ds t :
    ds <> "" -> all_chars is_digit ds = true ->
    line = (ds ++ ". " ++ t)%string -> contains "**" line = false ->
    classified line (NumberedItem t)
| cl_paragraph :
    contains "**" line = false -> all_chars is_space line = false ->
    startswith line "---" = false -> startswith line "- " = false ->
    match_numbered line = false ->
    classified line (Paragraph line)
| cl_blank :
    all_chars is_space line = true -> classified line BlankLine.

(** ** Sanity checks on the primitives *)

Example split_example :
  split "**" "a***b" = ["a"; "*b"] /\ split "**" "****" = [""; ""; ""]
  /\ split nl ("x" ++ nl ++ nl ++ "y")%string = ["x"; ""; "y"].
Proof. repeat split. Qed.

Example strip_example : strip "  a b  " = "a b" /\ strip "   " = "".
Proof. split; reflexivity. Qed.

Example match_numbered_example :
  match_numbered "12. x" = true /\ match_numbered ". x" = false
  /\ match_numbered "1.x" = false /\ match_numbered "1 . x" = false.
Proof. repeat split. Qed.

(** ** Facts about the string primitives *)

Section StringFacts.

Lemma startswith_app (s p : string) :
  startswith s p = true -> s = (p ++ drop (String.length p) s)%string.
Proof.
  revert s; induction p as [|a p IH]; intros s H; simpl in *.
  - now destruct s.
  - destruct s as [|b s]; [discriminate|].
    apply andb_prop in H as [Hab Hp].
    apply Ascii.eqb_eq in Hab; subst b.
    simpl. now rewrite <- IH.
Qed.

Lemma startswith_append (p t : string) : startswith (p ++ t) p = true.
Proof.
  induction p as [|a p IH]; simpl; [reflexivity|].
  now rewrite Ascii.eqb_refl, IH.
Qed.

Lemma startswith_extend (x t p : string) :
  startswith x p = true -> startswith (x ++ t) p = true.
Proof.
  revert x; induction p as [|a p IH]; intros x H; simpl in *; [reflexivity|].
  destruct x as [|b x]; [discriminate|]. simpl.
  apply andb_prop in H as [-> Hp]. simpl. now apply IH.
Qed.

Lemma drop_append (p t : string) : drop (String.length p) (p ++ t) = t.
Proof. induction p as [|a p IH]; simpl; [now destruct t | exact IH]. Qed.

Lemma drop_length_le (n : nat) (s : string) :
  String.length (drop n s) <= String.length s.
Proof.
  revert s; induction n as [|n IH]; intros [|c s]; simpl; auto.
Qed.

Lemma contains_tail (sub : string) (c : ascii) (s : string) :
  contains sub (String c s) = startswith (String c s) sub || contains sub s.
Proof. reflexivity. Qed.

Lemma contains_append_r (sub x t : string) :
  contains sub x = true -> contains sub (x ++ t) = true.
Proof.
  induction x as [|c x IH]; intros H.
  - simpl in H. rewrite orb_false_r in H.
    destruct sub; [|discriminate]. now destruct t.
  - rewrite contains_tail in H. change (String c x ++ t)%string
      with (String c (x ++ t)). rewrite contains_tail.
    apply orb_prop in H as [H|H].
    + change (String c (x ++ t)) with (String c x ++ t)%string.
      now rewrite (startswith_extend _ _ _ H).
    + now rewrite (IH H), orb_true_r.
Qed.

End StringFacts.

(** ** Facts about [split], [count] and [join] *)

Section SplitFacts.

Variable sep : string.
Hypothesis sep_nonempty : sep <> "".

Lemma split_fuel_nonempty (fuel : nat) (s : string) :
  split_fuel fuel sep s <> [].
Proof.
  revert s; induction fuel as [|f IH]; intros s; simpl; [discriminate|].
  destruct s as [|c r]; [discriminate|].
  destruct (startswith (String c r) sep); [discriminate|].
  specialize (IH r). now destruct (split_fuel f sep r).
Qed.

Lemma join_cons_head (c : ascii) (ps : list string) :
  ps <> [] -> join sep (cons_head c ps) = String c (join sep ps).
Proof. destruct ps as [|p [|q ps]]; intros H; [now destruct H| |]; reflexivity. Qed.

Lemma join_cons_empty (ps : list string) :
  ps <> [] -> join sep ("" :: ps) = (sep ++ join sep ps)%string.
Proof. destruct ps; intros H; [now destruct H|]; reflexivity. Qed.

Lemma drop_pred_tail (c : ascii) (r : string) :
  drop (String.length sep - 1) r = drop (String.length sep) (String c r).
Proof.
  destruct sep as [|a p]; [now destruct sep_nonempty|].
  simpl. now rewrite Nat.sub_0_r.
Qed.

(** Joining the pieces with the separator gives the string back. *)
Lemma split_fuel_join (fuel : nat) (s : string) :
  String.length s <= fuel -> join sep (split_fuel fuel sep s) = s.
Proof.
  revert s; induction fuel as [|f IH]; intros s Hlen.
  - destruct s; [reflexivity | simpl in Hlen; lia].
  - destruct s as [|c r]; [reflexivity|]. simpl in Hlen.
    cbn [split_fuel].
    destruct (startswith (String c r) sep) eqn:Hp.
    + rewrite join_cons_empty by apply split_fuel_nonempty.
      rewrite IH by (pose proof (drop_length_le (String.length sep - 1) r); lia).
      rewrite (drop_pred_tail c). symmetry. now apply startswith_app.
    + rewrite join_cons_head by apply split_fuel_nonempty.
      rewrite IH by lia. reflexivity.
Qed.

Lemma split_join (s : string) : join sep (split sep s) = s.
Proof. apply split_fuel_join. constructor. Qed.

(** One more piece than separators. *)
Lemma split_fuel_length (fuel : nat) (s : string) :
  List.length (split_fuel fuel sep s) = S (count_fuel fuel sep s).
Proof.
  revert s; induction fuel as [|f IH]; intros s; [reflexivity|].
  destruct s as [|c r]; [reflexivity|]. cbn [split_fuel count_fuel].
  destruct (startswith (String c r) sep).
  - simpl. now rewrite IH.
  - rewrite <- IH. pose proof (split_fuel_nonempty f r).
    now destruct (split_fuel f sep r).
Qed.

Lemma split_length (s : string) :
  List.length (split sep s) = S (count sep s).
Proof. apply split_fuel_length. Qed.

(** The first piece is an initial segment of the string. *)
Lemma split_fuel_head (fuel : nat) (s : string) :
  exists p ps t, split_fuel fuel sep s = p :: ps /\ s = (p ++ t)%string.
Proof.
  revert s; induction fuel as [|f IH]; intros s.
  - exists s, [], "". split; [reflexivity|].
    clear; induction s; simpl; congruence.
  - destruct s as [|c r]; [now exists "", [], ""|]. cbn [split_fuel].
    destruct (startswith (String c r) sep).
    + now exists "", (split_fuel f sep (drop (String.length sep - 1) r)), (String c r).
    + destruct (IH r) as (p & ps & t & -> & ->).
      now exists (String c p), ps, t.
Qed.

(** No piece contains the separator. *)
Lemma split_fuel_pieces (fuel : nat) (s : string) :
  String.length s <= fuel ->
  Forall (fun p => contains sep p = false) (split_fuel fuel sep s).
Proof.
  assert (Hempty : contains sep "" = false).
  { destruct sep; [now destruct sep_nonempty | reflexivity]. }
  revert s; induction fuel as [|f IH]; intros s Hlen.
  - destruct s; [|simpl in Hlen; lia]. now constructor.
  - destruct s as [|c r]; [now constructor|]. simpl in Hlen.
    cbn [split_fuel].
    destruct (startswith (String c r) sep) eqn:Hp.
    + constructor; [assumption|].
      apply IH. pose proof (drop_length_le (String.length sep - 1) r); lia.
    + assert (Hr : String.length r <= f) by lia.
      specialize (IH r Hr).
      destruct (split_fuel_head f r) as (p & ps & t & Heq & Hrt).
      rewrite Heq in *. simpl. inversion IH as [|? ? Hp1 Hps]; subst.
      constructor; [|assumption].
      rewrite contains_tail, Hp1, orb_false_r.
      destruct (startswith (String c p) sep) eqn:Hcp; [|reflexivity].
      apply (startswith_extend _ t) in Hcp. simpl in Hcp. congruence.
Qed.

Lemma split_pieces (s : string) :
  Forall (fun p => contains sep p = false) (split sep s).
Proof. apply split_fuel_pieces. constructor. Qed.

(** A string that contains the separator is cut at least once. *)
Lemma count_fuel_contains (fuel : nat) (s : string) :
  String.length s <= fuel -> contains sep s = true -> 1 <= count_fuel fuel sep s.
Proof.
  revert s; induction fuel as [|f IH]; intros s Hlen Hc.
  - destruct s; [|simpl in Hlen; lia]. simpl in Hc.
    destruct sep; [now destruct sep_nonempty | discriminate].
  - destruct s as [|c r].
    + simpl in Hc. destruct sep; [now destruct sep_nonempty | discriminate].
    + cbn [count_fuel]. rewrite contains_tail in Hc.
      destruct (startswith (String c r) sep); [lia|].
      simpl in Hlen. apply IH; [lia | assumption].
Qed.

Lemma count_contains (s : string) :
  contains sep s = true -> 1 <= count sep s.
Proof. apply count_fuel_contains. constructor. Qed.

End SplitFacts.

(** ** Facts about the runs of a bold line *)

Lemma bold_flag_odd (i : nat) : negb (i mod 2 =? 0)%nat = Nat.odd i.
Proof.
  rewrite <- Nat.bit0_mod, Nat.bit0_odd. now destruct (Nat.odd i).
Qed.

Lemma runs_from_texts (i : nat) (parts : list string) :
  map fst (runs_from i parts) = parts.
Proof.
  revert i; induction parts as [|p ps IH]; intros i; simpl; [reflexivity|].
  now rewrite IH.
Qed.

Lemma runs_from_nth (i k : nat) (parts : list string) :
  nth_error (runs_from i parts) k =
  option_map (fun p => (p, Nat.odd (i + k))) (nth_error parts k).
Proof.
  revert i k; induction parts as [|p ps IH]; intros i [|k];
    cbn [runs_from nth_error option_map]; try reflexivity.
  - now rewrite bold_flag_odd, Nat.add_0_r.
  - rewrite IH. now rewrite Nat.add_succ_r.
Qed.

Lemma runs_from_last (i : nat) (parts : list string) (d : string * bool) :
  parts <> [] ->
  snd (last (runs_from i parts) d) = Nat.odd (i + List.length parts - 1).
Proof.
  revert i; induction parts as [|p ps IH]; intros i H; [now destruct H|].
  destruct ps as [|q ps].
  - cbn [runs_from last snd List.length]. rewrite bold_flag_odd. f_equal. lia.
  - change (runs_from i (p :: q :: ps))
      with ((p, negb (i mod 2 =? 0)%nat) :: runs_from (S i) (q :: ps)).
    change (last (?x :: runs_from (S i) (q :: ps)) d)
      with (last (runs_from (S i) (q :: ps)) d).
    rewrite IH by discriminate. f_equal. simpl. lia.
Qed.

(** ** Facts about the loop *)

Lemma process_line_plain (st : state) (line : string) :
  in_code_block st = false -> startswith line "```" = false ->
  process_line st line =
  mkState (doc st ++ [classify line]) false (code_block_content st).
Proof. intros Hin Hf. unfold process_line. now rewrite Hf, Hin. Qed.

Lemma process_line_open (st : state) (line : string) :
  in_code_block st = false -> startswith line "```" = true ->
  process_line st line = mkState (doc st) true (code_block_content st).
Proof. intros Hin Hf. unfold process_line. now rewrite Hf, Hin. Qed.

Lemma process_line_buffer (st : state) (line : string) :
  in_code_block st = true -> startswith line "```" = false ->
  process_line st line =
  mkState (doc st) true (code_block_content st ++ [line]).
Proof. intros Hin Hf. unfold process_line. now rewrite Hf, Hin. Qed.

Lemma process_line_close (st : state) (line : string) :
  in_code_block st = true -> startswith line "```" = true ->
  process_line st line =
  mkState (doc st ++ match code_block_content st with
                     | [] => []
                     | _ :: _ => [CodeBlock (join nl (code_block_content st))]
                     end) false [].
Proof.
  intros Hin Hf. unfold process_line. rewrite Hf, Hin.
  destruct (code_block_content st); [now rewrite app_nil_r | reflexivity].
Qed.

Lemma process_lines_app (st : state) (l1 l2 : list string) :
  process_lines st (l1 ++ l2) = process_lines (process_lines st l1) l2.
Proof. apply fold_left_app. Qed.

(** Lines buffered inside an open fence. *)
Lemma process_lines_buffer (st : state) (body : list string) :
  in_code_block st = true ->
  Forall (fun l => startswith l "```" = false) body ->
  process_lines st body =
  mkState (doc st) true (code_block_content st ++ body).
Proof.
  revert st; induction body as [|l body IH]; intros st Hin Hb.
  - simpl. rewrite app_nil_r. now destruct st; simpl in *; subst.
  - inversion Hb as [|? ? Hl Hb']; subst.
    change (process_lines st (l :: body))
      with (process_lines (process_line st l) body).
    rewrite (process_line_buffer _ _ Hin Hl).
    rewrite IH by (simpl; auto). simpl. now rewrite <- app_assoc.
Qed.

Lemma process_line_inv (st : state) (line : string) :
  buffer_inv st -> buffer_inv (process_line st line).
Proof.
  unfold buffer_inv, process_line. intros H.
  destruct (startswith line "```"), (in_code_block st); simpl; auto;
    discriminate.
Qed.

Lemma process_lines_inv (st : state) (lines : list string) :
  buffer_inv st -> buffer_inv (process_lines st lines).
Proof.
  revert st; induction lines as [|l lines IH]; intros st H; [assumption|].
  apply IH, process_line_inv, H.
Qed.

(** ** Facts about the loop with the library's check *)

Lemma process_line_call (st : state) (line : string) :
  doc (process_line st line) = doc st ++ call st line.
Proof.
  unfold process_line, call.
  destruct (startswith line "```"), (in_code_block st); cbn [doc];
    try destruct (code_block_content st); now rewrite ?app_nil_r.
Qed.

Lemma process_lines_calls (st : state) (lines : list string) :
  doc (process_lines st lines) = doc st ++ calls st lines.
Proof.
  revert st; induction lines as [|l lines IH]; intros st.
  - simpl. now rewrite app_nil_r.
  - change (process_lines st (l :: lines))
      with (process_lines (process_line st l) lines).
    rewrite IH, process_line_call. cbn [calls]. now rewrite app_assoc.
Qed.

(** An iteration raises exactly when the library refuses the paragraph it
    is handed; otherwise it leaves the state [process_line] computes. *)
Lemma run_line_spec (st : state) (line : string) :
  run_line st line =
  if forallb block_ok (call st line) then Ok (process_line st line)
  else Raise ValueError.
Proof.
  unfold run_line, process_line, call, add_block.
  destruct (startswith line "```"), (in_code_block st); cbn [forallb];
    try reflexivity.
  - destruct (code_block_content st) as [|l ls]; [reflexivity|].
    cbn [forallb]. rewrite andb_true_r.
    now destruct (block_ok (CodeBlock (join nl (l :: ls)))).
  - rewrite andb_true_r. now destruct (block_ok (classify line)).
Qed.

(** The same for a whole run. *)
Lemma run_lines_spec (st : state) (lines : list string) :
  run_lines st lines =
  if forallb block_ok (calls st lines) then Ok (process_lines st lines)
  else Raise ValueError.
Proof.
  revert st; induction lines as [|l lines IH]; intros st; [reflexivity|].
  cbn [run_lines calls]. rewrite run_line_spec, forallb_app.
  destruct (forallb block_ok (call st l)); [|reflexivity].
  rewrite IH. reflexivity.
Qed.

Lemma run_lines_ok (st st' : state) (lines : list string) :
  run_lines st lines = Ok st' -> st' = process_lines st lines.
Proof.
  rewrite run_lines_spec.
  destruct (forallb block_ok (calls st lines)); intros H;
    [now injection H | discriminate].
Qed.

Lemma run_lines_app (st : state) (l1 l2 : list string) :
  run_lines st (l1 ++ l2) =
  match run_lines st l1 with
  | Ok s => run_lines s l2
  | Raise e => Raise e
  end.
Proof.
  revert st; induction l1 as [|l l1 IH]; intros st; [reflexivity|].
  cbn [app run_lines]. destruct (run_line st l); [apply IH | reflexivity].
Qed.

Lemma run_lines_grows (st st' : state) (lines : list string) :
  run_lines st lines = Ok st' -> doc st' = doc st ++ calls st lines.
Proof.
  intros H. rewrite (run_lines_ok _ _ _ H). apply process_lines_calls.
Qed.

Lemma run_line_plain (st : state) (line : string) :
  in_code_block st = false -> startswith line "```" = false ->
  run_line st line =
  if block_ok (classify line)
  then Ok (mkState (doc st ++ [classify line]) false (code_block_content st))
  else Raise ValueError.
Proof.
  intros Hin Hf. unfold run_line, add_block. rewrite Hf, Hin.
  now destruct (block_ok (classify line)).
Qed.

Lemma run_line_open (st : state) (line : string) :
  in_code_block st = false -> startswith line "```" = true ->
  run_line st line = Ok (mkState (doc st) true (code_block_content st)).
Proof. intros Hin Hf. unfold run_line. now rewrite Hf, Hin. Qed.

Lemma run_lines_buffer (st : state) (body : list string) :
  in_code_block st = true ->
  Forall (fun l => startswith l "```" = false) body ->
  run_lines st body = Ok (mkState (doc st) true (code_block_content st ++ body)).
Proof.
  revert st; induction body as [|l body IH]; intros st Hin Hb.
  - simpl. rewrite app_nil_r. now destruct st; simpl in *; subst.
  - inversion Hb as [|? ? Hl Hb']; subst.
    cbn [run_lines]. unfold run_line at 1. rewrite Hl, Hin.
    rewrite IH by (simpl; auto). simpl. now rewrite <- app_assoc.
Qed.

Lemma all_chars_app (f : ascii -> bool) (x y : string) :
  all_chars f (x ++ y) = all_chars f x && all_chars f y.
Proof.
  induction x as [|c x IH]; [reflexivity|].
  change (String c x ++ y)%string with (String c (x ++ y)).
  cbn [all_chars]. now rewrite IH, andb_assoc.
Qed.

Lemma all_chars_join (f : ascii -> bool) (sep : string) (ps : list string) :
  all_chars f sep = true ->
  all_chars f (join sep ps) = forallb (all_chars f) ps.
Proof.
  intros Hsep. induction ps as [|p ps IH]; [reflexivity|].
  destruct ps as [|q ps].
  - cbn [forallb]. unfold join. simpl. now rewrite andb_true_r.
  - change (join sep (p :: q :: ps))
      with (p ++ sep ++ join sep (q :: ps))%string.
    rewrite !all_chars_app, Hsep, IH. reflexivity.
Qed.

Lemma runs_from_ok (i : nat) (parts : list string) :
  forallb (fun r => xml_text (fst r)) (runs_from i parts) =
  forallb xml_text parts.
Proof.
  revert i; induction parts as [|p ps IH]; intros i; [reflexivity|].
  cbn [runs_from forallb fst]. now rewrite IH.
Qed.

(** The library accepts the runs of a bold line exactly when it accepts
    the line. *)
Lemma bold_runs_ok (line : string) :
  block_ok (MixedParagraph (bold_runs line)) = xml_text line.
Proof.
  cbn [block_ok]. unfold bold_runs. rewrite runs_from_ok.
  assert (Hsep : "**" <> "") by discriminate.
  rewrite <- (split_join "**" Hsep line) at 2.
  unfold xml_text. now rewrite all_chars_join.
Qed.

(** The library accepts a code block exactly when it accepts its lines. *)
Lemma code_block_ok (body : list string) :
  block_ok (CodeBlock (join nl body)) = forallb xml_text body.
Proof. cbn [block_ok]. unfold xml_text. now rewrite all_chars_join. Qed.

(** ** Headings *)

(** C1.  Outside a code fence the line ["# " ++ t] is classified as the
    level-1 heading [t], ["## " ++ t] as the level-2 heading [t],
    ["### " ++ t] as level 3 and ["#### " ++ t] as level 4, each without its
    prefix, and the heading is added to the document unless the library
    refuses its text, when the iteration raises; the line ["#### x"] is the
    level-4 heading ["x"] and not the level-1 heading ["### x"]. *)
Theorem heading_prefix_levels (st : state) (t : string) :
  in_code_block st = false ->
  (classify ("# " ++ t) = Heading 1 t
   /\ classify ("## " ++ t) = Heading 2 t
   /\ classify ("### " ++ t) = Heading 3 t
   /\ classify ("#### " ++ t) = Heading 4 t)
  /\ (run_line st ("# " ++ t) =
        if xml_text t
        then Ok (mkState (doc st ++ [Heading 1 t]) false (code_block_content st))
        else Raise ValueError)
  /\ (run_line st ("## " ++ t) =
        if xml_text t
        then Ok (mkState (doc st ++ [Heading 2 t]) false (code_block_content st))
        else Raise ValueError)
  /\ (run_line st ("### " ++ t) =
        if xml_text t
        then Ok (mkState (doc st ++ [Heading 3 t]) false (code_block_content st))
        else Raise ValueError)
  /\ (run_line st ("#### " ++ t) =
        if xml_text t
        then Ok (mkState (doc st ++ [Heading 4 t]) false (code_block_content st))
        else Raise ValueError)
  /\ run_line st "#### x" =
     Ok (mkState (doc st ++ [Heading 4 "x"]) false (code_block_content st))
  /\ classify "#### x" <> Heading 1 "### x".
Proof.
  intros Hin.
  split; [repeat split|].
  repeat match goal with
         | |- _ /\ _ => split
         | |- run_line _ _ = _ =>
             rewrite run_line_plain by (assumption || reflexivity);
             reflexivity
         end.
  discriminate.
Qed.

Lemma heading_prefix_levels_witness :
  run_line init "# Farmaverse" = Ok (mkState [Heading 1 "Farmaverse"] false [])
  /\ run_line init "## Farmaverse" =
     Ok (mkState [Heading 2 "Farmaverse"] false [])
  /\ run_line init "### Farmaverse" =
     Ok (mkState [Heading 3 "Farmaverse"] false [])
  /\ run_line init "#### Farmaverse" =
     Ok (mkState [Heading 4 "Farmaverse"] false []).
Proof.
  destruct (heading_prefix_levels init "Farmaverse" eq_refl)
    as (_ & H1 & H2 & H3 & H4 & _).
  exact (conj H1 (conj H2 (conj H3 H4))).
Defined.

(** ** Bold text *)

(** C2.  Outside a code fence, a line that is no fence, heading or rule line
    and contains ["**"] is made one mixed paragraph, added to the document
    unless the library refuses a run's text (it refuses one exactly when
    it refuses the line), when the iteration raises.  Its runs are, in
    order, the pieces of the line split at ["**"]: joined with ["**"] they
    give the line back and none contains ["**"].  The run of index [i] is
    bold exactly when [i] is odd, so an odd number of delimiters (counted as
    the split meets them, left to right without overlap) leaves a bold last
    run.  The line ["**bold** and plain"] gives the runs [""], bold
    ["bold"], [" and plain"]. *)
Theorem bold_line_runs :
  (forall (st : state) (line : string),
      in_code_block st = false ->
      startswith line "```" = false ->
      startswith line "# " = false -> startswith line "## " = false ->
      startswith line "### " = false -> startswith line "#### " = false ->
      startswith line "---" = false ->
      contains "**" line = true ->
      classify line = MixedParagraph (bold_runs line)
      /\ run_line st line =
         (if xml_text line
          then Ok (mkState (doc st ++ [MixedParagraph (bold_runs line)]) false
                           (code_block_content st))
          else Raise ValueError)
      /\ map fst (bold_runs line) = split "**" line
      /\ join "**" (map fst (bold_runs line)) = line
      /\ Forall (fun p => contains "**" p = false) (map fst (bold_runs line))
      /\ List.length (bold_runs line) = S (count "**" line)
      /\ 2 <= List.length (bold_runs line)
      /\ (forall i p b, nth_error (bold_runs line) i = Some (p, b) ->
                        b = Nat.odd i)
      /\ (Nat.odd (count "**" line) = true ->
          snd (last (bold_runs line) ("", false)) = true))
  /\ bold_runs "**bold** and plain" =
     [("", false); ("bold", true); (" and plain", false)]
  /\ run_line init "**bold** and plain" =
     Ok (mkState
           [MixedParagraph [("", false); ("bold", true); (" and plain", false)]]
           false []).
Proof.
  split; [|split; reflexivity].
  intros st line Hin Hf H1 H2 H3 H4 Hr Hb.
  assert (Hsep : "**" <> "") by discriminate.
  assert (Hlen : List.length (bold_runs line) = S (count "**" line)).
  { unfold bold_runs.
    rewrite <- (length_map fst), runs_from_texts. now apply split_length. }
  assert (Hc : classify line = MixedParagraph (bold_runs line)).
  { unfold classify. now rewrite H1, H2, H3, H4, Hr, Hb. }
  split; [exact Hc|]. split.
  { rewrite run_line_plain by assumption. now rewrite Hc, bold_runs_ok. }
  repeat split.
  - apply runs_from_texts.
  - unfold bold_runs. rewrite runs_from_texts. now apply split_join.
  - unfold bold_runs. rewrite runs_from_texts. now apply split_pieces.
  - exact Hlen.
  - rewrite Hlen. pose proof (count_contains "**" Hsep line Hb). lia.
  - intros i p b Hnth. unfold bold_runs in Hnth.
    rewrite runs_from_nth in Hnth.
    destruct (nth_error (split "**" line) i); simpl in Hnth; congruence.
  - intros Hodd. unfold bold_runs.
    rewrite runs_from_last.
    + rewrite (split_length "**"). simpl.
      now rewrite Nat.sub_0_r.
    + unfold split. now apply split_fuel_nonempty.
Qed.

Lemma bold_line_runs_witness :
  run_line init "a **b" =
  Ok (mkState [MixedParagraph [("a ", false); ("b", true)]] false [])
  /\ snd (last (bold_runs "a **b") ("", false)) = true.
Proof.
  destruct (proj1 bold_line_runs init "a **b"
              eq_refl eq_refl eq_refl eq_refl eq_refl eq_refl eq_refl
              eq_refl) as (_ & Hrun & _ & _ & _ & _ & _ & _ & H).
  split; [exact Hrun | exact (H eq_refl)].
Defined.

(** ** Code fences *)

(** C3.  The lines ["```"], ["line1"], ["line2"], ["```"] add exactly one
    code block, with text ["line1\nline2"], and nothing else.  A fence line
    adds no block of its own; the closing one adds the buffered lines joined
    with newlines when the buffer is not empty, and leaves the buffer
    empty. *)
Theorem fence_example :
  doc (process_lines init ["```"; "line1"; "line2"; "```"]) =
    [CodeBlock ("line1" ++ nl ++ "line2")]
  /\ convert_markdown_to_docx
       ("```" ++ nl ++ "line1" ++ nl ++ "line2" ++ nl ++ "```") =
     [CodeBlock ("line1" ++ nl ++ "line2")]
  /\ (forall st line,
         startswith line "```" = true -> in_code_block st = false ->
         process_line st line = mkState (doc st) true (code_block_content st))
  /\ (forall st line,
         startswith line "```" = true -> in_code_block st = true ->
         code_block_content st <> [] ->
         process_line st line =
         mkState (doc st ++ [CodeBlock (join nl (code_block_content st))])
                 false [])
  /\ (forall st line,
         startswith line "```" = true -> in_code_block st = true ->
         code_block_content st = [] ->
         process_line st line = mkState (doc st) false []).
Proof.
  split; [reflexivity|]. split; [reflexivity|].
  split; [|split].
  - intros st line Hf Hin. now apply process_line_open.
  - intros st line Hf Hin Hne. rewrite process_line_close by assumption.
    destruct (code_block_content st); [now destruct Hne | reflexivity].
  - intros st line Hf Hin He. rewrite process_line_close by assumption.
    now rewrite He, app_nil_r.
Qed.

Lemma fence_example_witness :
  process_line (mkState [Rule] true ["a"; "b"]) "```python" =
  mkState [Rule; CodeBlock ("a" ++ nl ++ "b")] false [].
Proof.
  exact (proj1 (proj2 (proj2 (proj2 fence_example)))
           (mkState [Rule] true ["a"; "b"]) "```python"
           eq_refl eq_refl ltac:(discriminate)).
Defined.

(** ** List items *)

Lemma digit_not_marker (d : ascii) :
  is_digit d = true ->
  Ascii.eqb "#" d = false /\ Ascii.eqb "-" d = false
  /\ Ascii.eqb "`" d = false /\ Ascii.eqb d " " = false.
Proof.
  destruct d as [[] [] [] [] [] [] [] []]; intros H;
    try discriminate H; repeat split.
Qed.

Lemma skip_digits_app (ds t : string) :
  all_chars is_digit ds = true ->
  skip_digits (ds ++ ". " ++ t) = (". " ++ t)%string.
Proof.
  induction ds as [|d ds IH]; intros H; [reflexivity|].
  simpl in H. apply andb_prop in H as [Hd Hds].
  change (skip_digits (String d (ds ++ ". " ++ t)) = (". " ++ t)%string).
  cbn [skip_digits]. rewrite Hd. now apply IH.
Qed.

Lemma find_space_app (ds t : string) :
  all_chars is_digit ds = true ->
  find_space (ds ++ ". " ++ t) = Some (String.length ds + 1).
Proof.
  induction ds as [|d ds IH]; intros H; [reflexivity|].
  simpl in H. apply andb_prop in H as [Hd Hds].
  change (find_space (String d (ds ++ ". " ++ t))
          = Some (String.length (String d ds) + 1)).
  cbn [find_space]. destruct (digit_not_marker d Hd) as (_ & _ & _ & ->).
  now rewrite IH.
Qed.

Lemma skip_digits_shape (s : string) :
  exists ds, all_chars is_digit ds = true /\ s = (ds ++ skip_digits s)%string.
Proof.
  induction s as [|c s (ds & Hds & Heq)]; [now exists ""|].
  cbn [skip_digits]. destruct (is_digit c) eqn:Hc.
  - exists (String c ds). simpl. rewrite Hc, Hds. split; [reflexivity|].
    now rewrite <- Heq.
  - now exists "".
Qed.

(** The lines the pattern [^\d+\. ] accepts: digits, at least one, then a
    period and a space. *)
Lemma match_numbered_iff (line : string) :
  match_numbered line = true <->
  exists ds t, ds <> "" /\ all_chars is_digit ds = true
               /\ line = (ds ++ ". " ++ t)%string.
Proof.
  split.
  - destruct line as [|c r]; [discriminate|]. cbn [match_numbered].
    intros H. apply andb_prop in H as [Hc Hp].
    destruct (skip_digits_shape r) as (ds & Hds & Heq).
    apply startswith_app in Hp.
    change (String.length ". ") with 2 in Hp.
    exists (String c ds), (drop 2 (skip_digits r)).
    split; [discriminate|]. split; [simpl; now rewrite Hc, Hds|].
    change (String c r = String c (ds ++ (". " ++ drop 2 (skip_digits r)))).
    now rewrite <- Hp, <- Heq.
  - intros (ds & t & Hne & Hds & ->).
    destruct ds as [|d ds]; [now destruct Hne|].
    simpl in Hds. apply andb_prop in Hds as [Hd Hds].
    change (is_digit d && startswith (skip_digits (ds ++ ". " ++ t)) ". "
            = true).
    now rewrite Hd, skip_digits_app.
Qed.

(** C4, as the code has it.  Outside a code fence, a line that does not
    contain ["**"] and begins with ["- "] is made a bullet item whose text
    is the line without its first two characters; a line that does not
    contain ["**"] and begins with one or more digits, a period and a space
    is made a numbered item whose text is what follows the first space.
    The item is added to the document unless the library refuses its text,
    when the iteration raises.  So ["- item"] is a bullet and ["1. item"] a
    numbered item, both with text ["item"]. *)
Theorem list_items_without_bold (st : state) :
  in_code_block st = false ->
  (forall line,
      startswith line "- " = true -> contains "**" line = false ->
      classify line = BulletItem (drop 2 line)
      /\ run_line st line =
         if xml_text (drop 2 line)
         then Ok (mkState (doc st ++ [BulletItem (drop 2 line)]) false
                          (code_block_content st))
         else Raise ValueError)
  /\ (forall ds t,
         ds <> "" -> all_chars is_digit ds = true ->
         contains "**" (ds ++ ". " ++ t) = false ->
         find_space (ds ++ ". " ++ t) = Some (String.length ds + 1)
         /\ classify (ds ++ ". " ++ t) = NumberedItem t
         /\ run_line st (ds ++ ". " ++ t) =
            if xml_text t
            then Ok (mkState (doc st ++ [NumberedItem t]) false
                             (code_block_content st))
            else Raise ValueError)
  /\ run_line st "- item" =
     Ok (mkState (doc st ++ [BulletItem "item"]) false (code_block_content st))
  /\ run_line st "1. item" =
     Ok (mkState (doc st ++ [NumberedItem "item"]) false
                 (code_block_content st)).
Proof.
  intros Hin. split; [|split; [|split]].
  - intros line Hp Hb.
    assert (Hc : classify line = BulletItem (drop 2 line)).
    { pose proof (startswith_app _ _ Hp) as Heq.
      change (String.length "- ") with 2 in Heq.
      remember (drop 2 line) as t eqn:Ht. clear Ht Hp.
      rewrite Heq in Hb |- *. unfold classify. now rewrite Hb. }
    split; [exact Hc|].
    rewrite run_line_plain; [now rewrite Hc | assumption|].
    pose proof (startswith_app _ _ Hp) as Heq. now rewrite Heq.
  - intros ds t Hne Hds Hb.
    pose proof (find_space_app ds t Hds) as Hfind.
    split; [assumption|].
    assert (Hm : match_numbered (ds ++ ". " ++ t) = true).
    { apply match_numbered_iff. now exists ds, t. }
    destruct ds as [|d ds]; [now destruct Hne|].
    simpl in Hds. apply andb_prop in Hds as [Hd Hds].
    destruct (digit_not_marker d Hd) as (Hh & Hm' & Hq & _).
    assert (Hdrop : drop (String.length (String d ds) + 1 + 1)
                      (String d ds ++ ". " ++ t) = t).
    { clear. generalize (String d ds). intros s.
      induction s as [|c s IH]; [reflexivity | exact IH]. }
    change (String d ds ++ ". " ++ t)%string
      with (String d (ds ++ ". " ++ t)) in *.
    assert (Hc : classify (String d (ds ++ ". " ++ t)) = NumberedItem t).
    { unfold classify. rewrite Hb, Hm, Hfind, Hdrop.
      cbn [startswith]. now rewrite Hh, Hm'. }
    split; [exact Hc|].
    rewrite run_line_plain;
      [now rewrite Hc | assumption | cbn [startswith]; now rewrite Hq].
  - now rewrite run_line_plain.
  - now rewrite run_line_plain.
Qed.

Lemma list_items_without_bold_witness :
  run_line init "- organic produce" =
  Ok (mkState [BulletItem "organic produce"] false [])
  /\ run_line init "12. step twelve" =
     Ok (mkState [NumberedItem "step twelve"] false []).
Proof.
  destruct (list_items_without_bold init eq_refl) as (Hb & Hn & _).
  split.
  - exact (proj2 (Hb "- organic produce" eq_refl eq_refl)).
  - exact (proj2 (proj2 (Hn "12" "step twelve" ltac:(discriminate)
                            eq_refl eq_refl))).
Defined.

(** C4 as stated fails: the line ["- **a**"] begins with ["- "], outside a
    fence, and adds a mixed paragraph, not a bullet item; likewise
    ["1. **a**"] adds no numbered item. *)
Lemma list_items_counterexample :
  in_code_block init = false
  /\ startswith "- **a**" "- " = true
  /\ doc (process_line init "- **a**") =
     [MixedParagraph [("- ", false); ("a", true); ("", false)]]
  /\ doc (process_line init "- **a**") <> [BulletItem "**a**"]
  /\ match_numbered "1. **a**" = true
  /\ doc (process_line init "1. **a**") <> [NumberedItem "**a**"]
  /\ run_line init "- **a**" =
     Ok (mkState [MixedParagraph [("- ", false); ("a", true); ("", false)]]
                 false [])
  /\ run_line init "1. **a**" =
     Ok (mkState [MixedParagraph [("1. ", false); ("a", true); ("", false)]]
                 false []).
Proof. repeat split; discriminate. Qed.

(** ** One block per line at most *)

(** C5.  Every line the loop gets through adds no block or one block to the
    document.  A fence line adds none of its own, except that a closing
    fence adds the one buffered code block; a line buffered inside a fence
    adds none; every other line adds exactly one, its classification.  In
    a run that completes every line is processed in its turn, from the
    state the lines before it left, and its block, if any, is in the
    document right after the blocks of the lines before it; so the run
    adds at most as many blocks as it has lines. *)
Theorem line_adds_at_most_one_block :
  (forall (st st' : state) (line : string),
      run_line st line = Ok st' ->
      exists out,
        doc st' = doc st ++ out
        /\ List.length out <= 1
        /\ (startswith line "```" = true ->
            out = [] \/
            (in_code_block st = true /\ code_block_content st <> []
             /\ out = [CodeBlock (join nl (code_block_content st))]))
        /\ (startswith line "```" = false -> in_code_block st = true ->
            out = [])
        /\ (startswith line "```" = false -> in_code_block st = false ->
            out = [classify line]))
  /\ (forall (lines : list string) (final : state),
         run_lines init lines = Ok final ->
         forall pre l post, lines = pre ++ l :: post ->
           exists s1 s2 out rest,
             run_lines init pre = Ok s1
             /\ run_line s1 l = Ok s2
             /\ run_lines s2 post = Ok final
             /\ doc s2 = doc s1 ++ out
             /\ List.length out <= 1
             /\ doc final = doc s1 ++ out ++ rest)
  /\ (forall (st final : state) (lines : list string),
         run_lines st lines = Ok final ->
         List.length (doc final) <= List.length (doc st) + List.length lines).
Proof.
  assert (Hcall : forall st line, List.length (call st line) <= 1).
  { intros st line. unfold call.
    destruct (startswith line "```"), (in_code_block st);
      try destruct (code_block_content st); simpl; lia. }
  assert (Hstep : forall st st' line,
             run_line st line = Ok st' -> doc st' = doc st ++ call st line).
  { intros st st' line H. rewrite run_line_spec in H.
    destruct (forallb block_ok (call st line)); [|discriminate].
    injection H as <-. apply process_line_call. }
  split; [|split].
  - intros st st' line H. exists (call st line).
    split; [now apply Hstep|]. split; [apply Hcall|].
    unfold call.
    destruct (startswith line "```") eqn:Hf, (in_code_block st) eqn:Hin.
    + destruct (code_block_content st) as [|l ls] eqn:Hbuf.
      * repeat split; auto; discriminate.
      * repeat split; auto; try discriminate.
        intros _. right. repeat split; discriminate.
    + repeat split; auto; discriminate.
    + repeat split; auto; discriminate.
    + repeat split; auto; discriminate.
  - intros lines final Hrun pre l post ->.
    rewrite run_lines_app in Hrun.
    destruct (run_lines init pre) as [s1|e] eqn:H1; [|discriminate].
    cbn [run_lines] in Hrun.
    destruct (run_line s1 l) as [s2|e] eqn:H2; [|discriminate].
    exists s1, s2, (call s1 l), (calls s2 post).
    repeat split; auto.
    rewrite (run_lines_grows _ _ _ Hrun), (Hstep _ _ _ H2).
    now rewrite app_assoc.
  - intros st final lines; revert st.
    induction lines as [|l lines IH]; intros st H.
    + injection H as <-. simpl. lia.
    + cbn [run_lines] in H.
      destruct (run_line st l) as [s|e] eqn:Hl; [|discriminate].
      specialize (IH _ H). rewrite (Hstep _ _ _ Hl), length_app in IH.
      specialize (Hcall st l). simpl. lia.
Qed.

Lemma line_adds_at_most_one_block_witness :
  exists s1 s2 out rest,
    run_lines init ["# A"; "```"; "x"] = Ok s1
    /\ run_line s1 "```" = Ok s2
    /\ run_lines s2 ["- b"] =
       Ok (mkState [Heading 1 "A"; CodeBlock "x"; BulletItem "b"] false [])
    /\ doc s2 = doc s1 ++ out
    /\ List.length out <= 1
    /\ [Heading 1 "A"; CodeBlock "x"; BulletItem "b"] = doc s1 ++ out ++ rest.
Proof.
  exact (proj1 (proj2 line_adds_at_most_one_block)
           ["# A"; "```"; "x"; "```"; "- b"]
           (mkState [Heading 1 "A"; CodeBlock "x"; BulletItem "b"] false [])
           eq_refl ["# A"; "```"; "x"] "```" ["- b"] eq_refl).
Defined.

(** ** Open fences *)

(** When the input read so far leaves a fence open, it ends with an opening
    fence line, met outside a fence, followed by lines that are no fence
    lines; these lines are the buffer, and the document is as it was before
    the opening fence. *)
Lemma open_fence_shape (lines : list string) :
  in_code_block (process_lines init lines) = true ->
  exists pre f body,
    lines = pre ++ f :: body
    /\ in_code_block (process_lines init pre) = false
    /\ startswith f "```" = true
    /\ Forall (fun l => startswith l "```" = false) body
    /\ doc (process_lines init lines) = doc (process_lines init pre)
    /\ code_block_content (process_lines init lines) = body.
Proof.
  induction lines as [|x l IH] using rev_ind; [discriminate|].
  rewrite process_lines_app.
  change (process_lines (process_lines init l) [x])
    with (process_line (process_lines init l) x).
  pose proof (process_lines_inv init l (fun _ => eq_refl)) as Hinv.
  unfold process_line.
  destruct (startswith x "```") eqn:Hf,
           (in_code_block (process_lines init l)) eqn:Hin;
    cbn [in_code_block doc code_block_content]; try discriminate; intros _.
  - exists l, x, []. repeat split; auto.
  - destruct (IH eq_refl) as (pre & f & body & Hl & Hpre & Hff & Hb & Hd & Hc).
    exists pre, f, (body ++ [x]). repeat split; auto.
    + now rewrite Hl, <- app_assoc.
    + apply Forall_app. split; [assumption | now constructor].
    + now rewrite Hc.
Qed.

(** C6.  An open fence cannot make the conversion fail and adds nothing.
    Whatever the lines after an opening fence line hold, as long as none is
    a fence line, the run over them completes, leaves the document as it
    was before the opening fence and keeps the lines in the buffer; so the
    conversion of an input that ends inside a fence completes whenever the
    lines before the opening fence are got through, and raises only if
    they raise.  Every run that ends with the flag set is of this shape.
    The lines ["```"], ["line1"] give the empty document. *)
Theorem unterminated_fence_dropped :
  (forall lines : list string,
      in_code_block (process_lines init lines) = true ->
      exists pre f body,
        lines = pre ++ f :: body
        /\ in_code_block (process_lines init pre) = false
        /\ startswith f "```" = true
        /\ Forall (fun l => startswith l "```" = false) body
        /\ doc (process_lines init lines) = doc (process_lines init pre)
        /\ code_block_content (process_lines init lines) = body)
  /\ (forall (st : state) (f : string) (body : list string),
         in_code_block st = false ->
         startswith f "```" = true ->
         Forall (fun l => startswith l "```" = false) body ->
         process_lines st (f :: body) =
         mkState (doc st) true (code_block_content st ++ body))
  /\ process_lines init ["```"; "line1"] = mkState [] true ["line1"]
  /\ convert_markdown_to_docx ("```" ++ nl ++ "line1") = []
  /\ (forall (st : state) (f : string) (body : list string),
         in_code_block st = false ->
         startswith f "```" = true ->
         Forall (fun l => startswith l "```" = false) body ->
         run_lines st (f :: body) =
         Ok (mkState (doc st) true (code_block_content st ++ body)))
  /\ (forall (pre : list string) (f : string) (body : list string),
         in_code_block (process_lines init pre) = false ->
         startswith f "```" = true ->
         Forall (fun l => startswith l "```" = false) body ->
         run_lines init (pre ++ f :: body) =
         match run_lines init pre with
         | Ok s => Ok (mkState (doc s) true body)
         | Raise e => Raise e
         end)
  /\ (forall (lines : list string) (st : state),
         run_lines init lines = Ok st -> in_code_block st = true ->
         exists pre f body s,
           lines = pre ++ f :: body
           /\ run_lines init pre = Ok s
           /\ in_code_block s = false
           /\ startswith f "```" = true
           /\ Forall (fun l => startswith l "```" = false) body
           /\ st = mkState (doc s) true body)
  /\ run_lines init ["```"; "line1"] = Ok (mkState [] true ["line1"])
  /\ run_convert ("```" ++ nl ++ "line1") = Ok [].
Proof.
  assert (Hopen : forall st f body,
             in_code_block st = false ->
             startswith f "```" = true ->
             Forall (fun l => startswith l "```" = false) body ->
             run_lines st (f :: body) =
             Ok (mkState (doc st) true (code_block_content st ++ body))).
  { intros st f body Hin Hf Hb. cbn [run_lines].
    rewrite (run_line_open _ _ Hin Hf). now rewrite run_lines_buffer. }
  assert (Hpre : forall pre f body,
             in_code_block (process_lines init pre) = false ->
             startswith f "```" = true ->
             Forall (fun l => startswith l "```" = false) body ->
             run_lines init (pre ++ f :: body) =
             match run_lines init pre with
             | Ok s => Ok (mkState (doc s) true body)
             | Raise e => Raise e
             end).
  { intros pre f body Hin Hf Hb. rewrite run_lines_app.
    destruct (run_lines init pre) as [s|e] eqn:Hs; [|reflexivity].
    pose proof (run_lines_ok _ _ _ Hs) as ->.
    rewrite (Hopen _ f body Hin Hf Hb).
    now rewrite (process_lines_inv init pre (fun _ => eq_refl) Hin). }
  split; [exact open_fence_shape|]. split.
  { intros st f body Hin Hf Hb.
    change (process_lines st (f :: body))
      with (process_lines (process_line st f) body).
    rewrite (process_line_open _ _ Hin Hf).
    now rewrite process_lines_buffer. }
  split; [reflexivity|]. split; [reflexivity|].
  split; [exact Hopen|]. split; [exact Hpre|].
  split; [|split; reflexivity].
  intros lines st Hrun Hin.
  pose proof (run_lines_ok _ _ _ Hrun) as Hst. subst st.
  destruct (open_fence_shape lines Hin)
    as (pre & f & body & Hl & Hp & Hf & Hb & _ & _).
  subst lines. rewrite (Hpre pre f body Hp Hf Hb) in Hrun.
  destruct (run_lines init pre) as [s|e] eqn:Hs; [|discriminate].
  exists pre, f, body, s. repeat split; auto.
  - now rewrite (run_lines_ok _ _ _ Hs).
  - now injection Hrun.
Qed.

Lemma unterminated_fence_dropped_witness :
  run_lines init ["# Title"; "```sol"; "uint x;"; ""; "- y"] =
  Ok (mkState [Heading 1 "Title"] true ["uint x;"; ""; "- y"]).
Proof.
  exact (proj1 (proj2 (proj2 (proj2 (proj2 (proj2
           unterminated_fence_dropped)))))
           ["# Title"] "```sol" ["uint x;"; ""; "- y"]
           eq_refl eq_refl ltac:(repeat constructor)).
Defined.

(** ** Bold before bullets *)

(** C7.  Outside a code fence, a line that begins with ["- "] and contains
    ["**"] is made a mixed paragraph of runs that are bold at the odd
    indices, and no bullet item: the paragraph is added to the document
    unless the library refuses the line's text, when the iteration raises,
    and in no case is a bullet item added. *)
Theorem bold_beats_bullet (st : state) (line : string) :
  in_code_block st = false ->
  startswith line "- " = true ->
  contains "**" line = true ->
  classify line = MixedParagraph (bold_runs line)
  /\ run_line st line =
     (if xml_text line
      then Ok (mkState (doc st ++ [MixedParagraph (bold_runs line)]) false
                       (code_block_content st))
      else Raise ValueError)
  /\ (forall st' t, run_line st line = Ok st' ->
                    doc st' <> doc st ++ [BulletItem t])
  /\ (forall i p b, nth_error (bold_runs line) i = Some (p, b) ->
                    b = Nat.odd i).
Proof.
  intros Hin Hp Hb.
  assert (Hc : classify line = MixedParagraph (bold_runs line)).
  { pose proof (startswith_app _ _ Hp) as Heq.
    change (String.length "- ") with 2 in Heq.
    remember (drop 2 line) as t eqn:Ht. clear Ht Hp.
    rewrite Heq in Hb |- *. unfold classify. now rewrite Hb. }
  assert (Hrun : run_line st line =
                 if xml_text line
                 then Ok (mkState (doc st ++ [MixedParagraph (bold_runs line)])
                                  false (code_block_content st))
                 else Raise ValueError).
  { rewrite run_line_plain; [now rewrite Hc, bold_runs_ok | assumption|].
    pose proof (startswith_app _ _ Hp) as Heq. now rewrite Heq. }
  split; [exact Hc|]. split; [exact Hrun|]. split.
  - intros st' t H. rewrite Hrun in H.
    destruct (xml_text line); [|discriminate]. injection H as <-.
    cbn [doc]. intros E. apply app_inv_head in E. discriminate.
  - intros i p b Hnth. unfold bold_runs in Hnth.
    rewrite runs_from_nth in Hnth.
    destruct (nth_error (split "**" line) i); simpl in Hnth; congruence.
Qed.

Lemma bold_beats_bullet_witness :
  run_line init "- **Farmers**: list produce" =
  Ok (mkState
        [MixedParagraph
           [("- ", false); ("Farmers", true); (": list produce", false)]]
        false []).
Proof.
  exact (proj1 (proj2 (bold_beats_bullet init "- **Farmers**: list produce"
                         eq_refl eq_refl eq_refl))).
Defined.

(** ** Plain documents *)

Lemma rstrip_truthy (s : string) :
  truthy (rstrip s) = negb (all_chars is_space s).
Proof.
  induction s as [|c s IH]; [reflexivity|].
  cbn [rstrip all_chars]. destruct (rstrip s).
  - simpl in IH. apply (f_equal negb) in IH. rewrite negb_involutive in IH.
    rewrite <- IH, andb_true_r. now destruct (is_space c).
  - simpl in IH. apply (f_equal negb) in IH. rewrite negb_involutive in IH.
    rewrite <- IH, andb_false_r. reflexivity.
Qed.

Lemma lstrip_all_space (s : string) :
  all_chars is_space (lstrip s) = all_chars is_space s.
Proof.
  induction s as [|c s IH]; [reflexivity|].
  cbn [lstrip all_chars]. destruct (is_space c) eqn:Hc; [exact IH|].
  cbn [all_chars]. now rewrite Hc.
Qed.

(** [line.strip()] is empty exactly when the line has only whitespace. *)
Lemma strip_truthy (s : string) :
  truthy (strip s) = negb (all_chars is_space s).
Proof. unfold strip. now rewrite rstrip_truthy, lstrip_all_space. Qed.

Lemma classify_plain (line : string) :
  plain_line line = true -> classify line = plain_block line.
Proof.
  unfold plain_line, plain_as_claimed, classify, plain_block. intros H.
  repeat match type of H with
         | _ && _ = true => apply andb_prop in H as [H ?]
         end.
  repeat match goal with
         | E : negb ?b = true |- _ => apply negb_true_iff in E; rewrite E
         end.
  rewrite strip_truthy. now destruct (all_chars is_space line).
Qed.

Lemma process_lines_plain (st : state) (lines : list string) :
  in_code_block st = false ->
  Forall (fun l => plain_line l = true) lines ->
  process_lines st lines =
  mkState (doc st ++ map plain_block lines) false (code_block_content st).
Proof.
  revert st; induction lines as [|l lines IH]; intros st Hin Hall.
  - simpl. rewrite app_nil_r. now destruct st; simpl in *; subst.
  - inversion Hall as [|? ? Hl Hall']; subst.
    change (process_lines st (l :: lines))
      with (process_lines (process_line st l) lines).
    assert (Hf : startswith l "```" = false).
    { unfold plain_line, plain_as_claimed in Hl.
      destruct (startswith l "```"); [discriminate | reflexivity]. }
    rewrite (process_line_plain _ _ Hin Hf), IH by (simpl; auto).
    cbn [doc code_block_content]. rewrite (classify_plain _ Hl).
    now rewrite <- app_assoc.
Qed.

Lemma plain_block_ok (lines : list string) :
  forallb block_ok (map plain_block lines) =
  forallb (fun l => all_chars is_space l || xml_text l) lines.
Proof.
  induction lines as [|l lines IH]; [reflexivity|].
  cbn [map forallb]. rewrite IH. f_equal.
  unfold plain_block. now destruct (all_chars is_space l).
Qed.

(** C8, as the code has it.  When no line of the input is a fence, heading,
    rule or list-item line or contains ["**"], the document has one block
    per line, in the order of the lines: a blank line for a line that is
    empty or has only whitespace, and for any other line a paragraph with
    the line as its text, unchanged.  The conversion of such an input
    completes exactly when the library accepts the text of every line that
    is not all whitespace. *)
Theorem plain_document_blocks (lines : list string) :
  Forall (fun l => plain_line l = true) lines ->
  run_lines init lines =
    (if forallb (fun l => all_chars is_space l || xml_text l) lines
     then Ok (mkState (map plain_block lines) false [])
     else Raise ValueError)
  /\ (forall final, run_lines init lines = Ok final ->
        doc final = map plain_block lines
        /\ List.length (doc final) = List.length lines
        /\ (forall i l, nth_error lines i = Some l ->
              nth_error (doc final) i =
              Some (if truthy (strip l) then Paragraph l else BlankLine))).
Proof.
  intros Hall.
  pose proof (process_lines_plain init lines eq_refl Hall) as Hp.
  cbn [init doc code_block_content app] in Hp. fold init in Hp.
  assert (Hcalls : calls init lines = map plain_block lines).
  { pose proof (process_lines_calls init lines) as H.
    rewrite Hp in H. exact (eq_sym H). }
  assert (Hrun : run_lines init lines =
                 if forallb (fun l => all_chars is_space l || xml_text l) lines
                 then Ok (mkState (map plain_block lines) false [])
                 else Raise ValueError).
  { now rewrite run_lines_spec, Hcalls, plain_block_ok, Hp. }
  split; [exact Hrun|].
  intros final Hfinal.
  assert (Hdoc : doc final = map plain_block lines).
  { rewrite (run_lines_ok _ _ _ Hfinal), Hp. reflexivity. }
  split; [exact Hdoc|]. split.
  - now rewrite Hdoc, length_map.
  - intros i l Hnth. rewrite Hdoc, nth_error_map, Hnth. simpl.
    unfold plain_block. rewrite strip_truthy.
    now destruct (all_chars is_space l).
Qed.

Lemma plain_document_blocks_witness :
  run_lines init ["Farm to fork."; ""; "  indented text "; "   "] =
  Ok (mkState [Paragraph "Farm to fork."; BlankLine;
               Paragraph "  indented text "; BlankLine] false []).
Proof.
  exact (proj1 (plain_document_blocks
                  ["Farm to fork."; ""; "  indented text "; "   "]
                  ltac:(repeat constructor))).
Defined.

(** C8 as stated fails twice.  The line [" "] is not empty and is no
    heading, list item, bold or fence line, yet it adds a blank line and no
    paragraph; the line ["---"] is such a line too and adds a rule. *)
Lemma plain_document_counterexample :
  (plain_as_claimed " " = true /\ " " <> ""
   /\ doc (process_lines init [" "]) = [BlankLine]
   /\ doc (process_lines init [" "]) <> [Paragraph " "])
  /\ (plain_as_claimed "---" = true /\ "---" <> ""
      /\ doc (process_lines init ["---"]) = [Rule]
      /\ doc (process_lines init ["---"]) <> [Paragraph "---"])
  /\ run_lines init [" "] = Ok (mkState [BlankLine] false [])
  /\ run_lines init ["---"] = Ok (mkState [Rule] false []).
Proof. repeat split; discriminate. Qed.

(** ** Hash marks that make no heading *)

Lemma startswith_shorter (s p q : string) :
  startswith s (p ++ q) = true -> startswith s p = true.
Proof.
  revert s; induction p as [|a p IH]; intros s H; [reflexivity|].
  change (String a p ++ q)%string with (String a (p ++ q)) in H.
  cbn [startswith] in *. destruct s as [|b s]; [discriminate|].
  apply andb_prop in H as [-> H]. now rewrite (IH _ H).
Qed.

(** A heading prefix of [k] hash marks and a space matches a line of [n]
    hash marks and a rest only for [n = k] and a rest that begins with the
    space. *)
Lemma startswith_hashes (n k : nat) (rest : string) :
  startswith rest "#" = false ->
  startswith (hashes n ++ rest) (hashes k ++ " ") = true ->
  n = k /\ startswith rest " " = true.
Proof.
  intros Hrest. revert n; induction k as [|k IH]; intros [|n] H.
  - split; [reflexivity | exact H].
  - discriminate H.
  - change (hashes (S k) ++ " ")%string with ("#" ++ (hashes k ++ " "))%string in H.
    apply startswith_shorter in H. simpl hashes in H.
    change ("" ++ rest)%string with rest in H. congruence.
  - change (startswith (String "#" (hashes n ++ rest))
              (String "#" (hashes k ++ " ")) = true) in H.
    cbn [startswith] in H. apply andb_prop in H as [_ H].
    destruct (IH _ H) as [-> Hsp]. now split.
Qed.

(** C9.  Outside a code fence, a line of [n >= 1] hash marks followed by a
    rest that does not go on with a hash mark is made no heading when the
    rest does not begin with a space, or when [n >= 5]: no list or rule
    prefix can match it, and it is made a paragraph with the line
    unchanged unless it contains ["**"], when it is made a mixed paragraph.
    The paragraph is added to the document unless the library refuses the
    line's text, when the iteration raises; in no case is a heading
    added. *)
Theorem hash_runs_without_heading (st : state) (n : nat) (rest : string) :
  in_code_block st = false ->
  1 <= n ->
  startswith rest "#" = false ->
  startswith rest " " = false \/ 5 <= n ->
  (forall lv t, classify (hashes n ++ rest) <> Heading lv t)
  /\ (forall st' lv t,
         run_line st (hashes n ++ rest) = Ok st' ->
         doc st' <> doc st ++ [Heading lv t])
  /\ startswith (hashes n ++ rest) "---" = false
  /\ startswith (hashes n ++ rest) "- " = false
  /\ match_numbered (hashes n ++ rest) = false
  /\ (contains "**" (hashes n ++ rest) = false ->
      classify (hashes n ++ rest) = Paragraph (hashes n ++ rest)
      /\ run_line st (hashes n ++ rest) =
         if xml_text (hashes n ++ rest)
         then Ok (mkState (doc st ++ [Paragraph (hashes n ++ rest)]) false
                          (code_block_content st))
         else Raise ValueError)
  /\ (contains "**" (hashes n ++ rest) = true ->
      classify (hashes n ++ rest) = MixedParagraph (bold_runs (hashes n ++ rest))
      /\ run_line st (hashes n ++ rest) =
         if xml_text (hashes n ++ rest)
         then Ok (mkState
                    (doc st ++ [MixedParagraph (bold_runs (hashes n ++ rest))])
                    false (code_block_content st))
         else Raise ValueError).
Proof.
  intros Hin Hn Hrest Hcase.
  assert (Hno : forall k, 1 <= k <= 4 ->
              startswith (hashes n ++ rest) (hashes k ++ " ") = false).
  { intros k Hk.
    destruct (startswith (hashes n ++ rest) (hashes k ++ " ")) eqn:E;
      [|reflexivity].
    destruct (startswith_hashes n k rest Hrest E) as [-> Hsp].
    destruct Hcase as [Hc | Hc]; [congruence | lia]. }
  pose proof (Hno 1 ltac:(lia)) as H1. pose proof (Hno 2 ltac:(lia)) as H2.
  pose proof (Hno 3 ltac:(lia)) as H3. pose proof (Hno 4 ltac:(lia)) as H4.
  change (hashes 1 ++ " ")%string with "# " in H1.
  change (hashes 2 ++ " ")%string with "## " in H2.
  change (hashes 3 ++ " ")%string with "### " in H3.
  change (hashes 4 ++ " ")%string with "#### " in H4.
  clear Hno Hcase.
  destruct n as [|n]; [lia|].
  change (hashes (S n) ++ rest)%string with (String "#" (hashes n ++ rest)) in *.
  set (line := String "#" (hashes n ++ rest)) in *.
  assert (Hf : startswith line "```" = false) by reflexivity.
  assert (Hr : startswith line "---" = false) by reflexivity.
  assert (Hb : startswith line "- " = false) by reflexivity.
  assert (Hm : match_numbered line = false) by reflexivity.
  assert (Hs : truthy (strip line) = true).
  { rewrite strip_truthy. reflexivity. }
  assert (Hc : classify line =
               if contains "**" line then MixedParagraph (bold_runs line)
               else Paragraph line).
  { unfold classify. now rewrite H1, H2, H3, H4, Hr, Hb, Hm, Hs. }
  assert (Hrun : run_line st line =
                 if xml_text line
                 then Ok (mkState (doc st ++ [classify line]) false
                                  (code_block_content st))
                 else Raise ValueError).
  { rewrite run_line_plain by assumption. rewrite Hc at 1.
    destruct (contains "**" line); [now rewrite bold_runs_ok | reflexivity]. }
  split; [|split].
  - intros lv t. rewrite Hc. destruct (contains "**" line); discriminate.
  - intros st' lv t H. rewrite Hrun in H.
    destruct (xml_text line); [|discriminate]. injection H as <-.
    cbn [doc]. intros E. apply app_inv_head in E. rewrite Hc in E.
    destruct (contains "**" line); discriminate.
  - repeat split; auto.
    + rewrite Hc. now rewrite H.
    + rewrite Hrun, Hc. now rewrite H.
    + rewrite Hc. now rewrite H.
    + rewrite Hrun, Hc. now rewrite H.
Qed.

Lemma hash_runs_without_heading_witness :
  run_line init "#text" = Ok (mkState [Paragraph "#text"] false [])
  /\ run_line init "##x" = Ok (mkState [Paragraph "##x"] false [])
  /\ run_line init "##### x" = Ok (mkState [Paragraph "##### x"] false []).
Proof.
  split; [|split].
  - exact (proj2 (proj1 (proj2 (proj2 (proj2 (proj2 (proj2
             (hash_runs_without_heading init 1 "text" eq_refl
                ltac:(lia) eq_refl (or_introl eq_refl)))))))
             eq_refl)).
  - exact (proj2 (proj1 (proj2 (proj2 (proj2 (proj2 (proj2
             (hash_runs_without_heading init 2 "x" eq_refl
                ltac:(lia) eq_refl (or_introl eq_refl)))))))
             eq_refl)).
  - exact (proj2 (proj1 (proj2 (proj2 (proj2 (proj2 (proj2
             (hash_runs_without_heading init 5 " x" eq_refl
                ltac:(lia) eq_refl (or_intror (le_n 5))))))))
             eq_refl)).
Defined.

(** ** The buffer and the fence flag *)

Lemma run_lines_fence (s : state) (f1 : string) (body : list string)
      (f2 : string) :
  in_code_block s = false -> code_block_content s = [] ->
  startswith f1 "```" = true ->
  Forall (fun l => startswith l "```" = false) body ->
  startswith f2 "```" = true ->
  run_lines s (f1 :: body ++ [f2]) =
  match body with
  | [] => Ok (mkState (doc s) false [])
  | _ :: _ =>
      if forallb xml_text body
      then Ok (mkState (doc s ++ [CodeBlock (join nl body)]) false [])
      else Raise ValueError
  end.
Proof.
  intros Hin Hbuf Hf1 Hb Hf2.
  change (f1 :: body ++ [f2]) with ((f1 :: body) ++ [f2]).
  rewrite run_lines_app. cbn [run_lines].
  rewrite (run_line_open _ _ Hin Hf1).
  rewrite run_lines_buffer by (reflexivity || assumption).
  cbn [doc code_block_content]. rewrite Hbuf. cbn [app].
  unfold run_line, add_block. rewrite Hf2. cbn [in_code_block code_block_content doc].
  destruct body as [|b0 body]; [reflexivity|].
  rewrite code_block_ok.
  now destruct (forallb xml_text (b0 :: body)).
Qed.

(** C10.  After any number of lines the buffer is empty unless a fence is
    open; while one is open the buffer holds the lines read since the fence
    line that opened it.  A run that completes leaves the flag and the
    buffer so computed.  So a fence closed after a non-empty body adds the
    code block of exactly the body's lines and leaves the buffer empty,
    unless the library refuses the text of one of these lines, when the
    closing fence raises. *)
Theorem buffer_follows_fence :
  (forall lines : list string,
      in_code_block (process_lines init lines) = false ->
      code_block_content (process_lines init lines) = [])
  /\ (forall lines : list string,
         in_code_block (process_lines init lines) = true ->
         exists pre f body,
           lines = pre ++ f :: body
           /\ in_code_block (process_lines init pre) = false
           /\ startswith f "```" = true
           /\ Forall (fun l => startswith l "```" = false) body
           /\ code_block_content (process_lines init lines) = body)
  /\ (forall (lines : list string) (st : state),
         run_lines init lines = Ok st ->
         st = process_lines init lines
         /\ (in_code_block st = false -> code_block_content st = []))
  /\ (forall (pre : list string) (s : state) (f1 : string)
             (body : list string) (f2 : string),
         run_lines init pre = Ok s ->
         in_code_block s = false ->
         startswith f1 "```" = true ->
         Forall (fun l => startswith l "```" = false) body ->
         startswith f2 "```" = true ->
         run_lines init (pre ++ f1 :: body ++ [f2]) =
         match body with
         | [] => Ok (mkState (doc s) false [])
         | _ :: _ =>
             if forallb xml_text body
             then Ok (mkState (doc s ++ [CodeBlock (join nl body)]) false [])
             else Raise ValueError
         end).
Proof.
  split; [|split; [|split]].
  - intros lines. exact (process_lines_inv init lines (fun _ => eq_refl)).
  - intros lines Hin.
    destruct (open_fence_shape lines Hin)
      as (pre & f & body & H1 & H2 & H3 & H4 & _ & H6).
    now exists pre, f, body.
  - intros lines st H. pose proof (run_lines_ok _ _ _ H) as ->.
    split; [reflexivity|].
    exact (process_lines_inv init lines (fun _ => eq_refl)).
  - intros pre s f1 body f2 Hs Hin Hf1 Hb Hf2.
    rewrite run_lines_app, Hs.
    apply run_lines_fence; auto.
    pose proof (run_lines_ok _ _ _ Hs) as ->.
    exact (process_lines_inv init pre (fun _ => eq_refl) Hin).
Qed.

Lemma buffer_follows_fence_witness :
  run_lines init ["intro"; "```"; "a"; "b"; "```"; "```js"; "c"; "```js"] =
  Ok (mkState [Paragraph "intro"; CodeBlock ("a" ++ nl ++ "b"); CodeBlock "c"]
              false []).
Proof.
  exact (proj2 (proj2 (proj2 buffer_follows_fence))
           ["intro"; "```"; "a"; "b"; "```"]
           (mkState [Paragraph "intro"; CodeBlock ("a" ++ nl ++ "b")] false [])
           "```js" ["c"] "```js"
           eq_refl eq_refl eq_refl ltac:(repeat constructor) eq_refl).
Defined.

(** * Further properties of the loop *)

(** ** The fence flag *)

Lemma process_line_flag (st : state) (line : string) :
  in_code_block (process_line st line) =
  xorb (in_code_block st) (startswith line "```").
Proof.
  unfold process_line.
  now destruct (startswith line "```"), (in_code_block st).
Qed.

(** X1.  After any input the fence flag is set exactly when the number of
    fence lines read is odd: fence lines pair up in the order they come,
    whatever follows the three backticks and whatever lies between them.
    From any state, an input flips the flag exactly when it has an odd
    number of fence lines. *)
Theorem fence_flag_parity :
  (forall lines : list string,
      in_code_block (process_lines init lines) = Nat.odd (fence_count lines))
  /\ (forall (st : state) (lines : list string),
         in_code_block (process_lines st lines) =
         xorb (in_code_block st) (Nat.odd (fence_count lines))).
Proof.
  assert (Hgen : forall lines st,
             in_code_block (process_lines st lines) =
             xorb (in_code_block st) (Nat.odd (fence_count lines))).
  { induction lines as [|l lines IH]; intros st.
    - simpl. now rewrite xorb_false_r.
    - change (process_lines st (l :: lines))
        with (process_lines (process_line st l) lines).
      rewrite IH, process_line_flag. unfold fence_count. cbn [filter].
      destruct (startswith l "```"); cbn [List.length].
      + rewrite Nat.odd_succ, <- Nat.negb_odd.
        now destruct (in_code_block st), (Nat.odd _).
      + now rewrite xorb_false_r. }
  split.
  - intros lines. now rewrite Hgen.
  - intros st lines. apply Hgen.
Qed.

(** ** The document only grows *)

Lemma process_line_frame (d : list Block) (f : bool) (b : list string)
      (line : string) :
  process_line (mkState d f b) line =
  mkState (d ++ doc (process_line (mkState [] f b) line))
          (in_code_block (process_line (mkState [] f b) line))
          (code_block_content (process_line (mkState [] f b) line)).
Proof.
  unfold process_line. cbn [doc in_code_block code_block_content].
  destruct (startswith line "```"), f; cbn [doc in_code_block code_block_content];
    try destruct b; now rewrite ?app_nil_r.
Qed.

Lemma process_lines_frame (d : list Block) (f : bool) (b : list string)
      (lines : list string) :
  process_lines (mkState d f b) lines =
  mkState (d ++ doc (process_lines (mkState [] f b) lines))
          (in_code_block (process_lines (mkState [] f b) lines))
          (code_block_content (process_lines (mkState [] f b) lines)).
Proof.
  revert d f b; induction lines as [|l lines IH]; intros d f b.
  - simpl. now rewrite app_nil_r.
  - change (process_lines ?s (l :: lines))
      with (process_lines (process_line s l) lines).
    rewrite (process_line_frame d).
    destruct (process_line (mkState [] f b) l) as [d1 f1 b1].
    cbn [doc in_code_block code_block_content].
    rewrite (IH (d ++ d1)), (IH d1).
    cbn [doc in_code_block code_block_content]. now rewrite app_assoc.
Qed.

(** X2.  The loop only appends to the document and never looks at it: the
    blocks already there stay, in their place and unchanged, and what is
    added, the flag and the buffer are the same whatever the document
    was. *)
Theorem document_only_grows (d : list Block) (f : bool) (b : list string)
        (lines : list string) :
  doc (process_lines (mkState d f b) lines) =
    d ++ doc (process_lines (mkState [] f b) lines)
  /\ in_code_block (process_lines (mkState d f b) lines) =
     in_code_block (process_lines (mkState [] f b) lines)
  /\ code_block_content (process_lines (mkState d f b) lines) =
     code_block_content (process_lines (mkState [] f b) lines)
  /\ firstn (List.length d) (doc (process_lines (mkState d f b) lines)) = d.
Proof.
  rewrite process_lines_frame. cbn [doc in_code_block code_block_content].
  repeat split.
  rewrite firstn_app, Nat.sub_diag, firstn_all. simpl. now rewrite app_nil_r.
Qed.

(** ** Inputs compose *)

Lemma process_lines_closed_app (l1 l2 : list string) :
  in_code_block (process_lines init l1) = false ->
  process_lines init (l1 ++ l2) =
  mkState (doc (process_lines init l1) ++ doc (process_lines init l2))
          (in_code_block (process_lines init l2))
          (code_block_content (process_lines init l2)).
Proof.
  intros Hin. rewrite process_lines_app.
  pose proof (process_lines_inv init l1 (fun _ => eq_refl) Hin) as Hbuf.
  destruct (process_lines init l1) as [d f b]. simpl in Hin, Hbuf. subst f b.
  apply process_lines_frame.
Qed.

(** X3.  When the first part of an input leaves no fence open, the document
    of the whole input is the document of the first part followed by the
    document of the rest, and the final flag and buffer are those of the
    rest alone. *)
Theorem inputs_compose (l1 l2 : list string) :
  in_code_block (process_lines init l1) = false ->
  doc (process_lines init (l1 ++ l2)) =
    doc (process_lines init l1) ++ doc (process_lines init l2)
  /\ in_code_block (process_lines init (l1 ++ l2)) =
     in_code_block (process_lines init l2)
  /\ code_block_content (process_lines init (l1 ++ l2)) =
     code_block_content (process_lines init l2).
Proof.
  intros Hin. now rewrite (process_lines_closed_app l1 l2 Hin).
Qed.

Lemma inputs_compose_witness :
  doc (process_lines init (["# A"; "```"; "x"; "```"] ++ ["- b"; "```"; "y"]))
  = [Heading 1 "A"; CodeBlock "x"] ++ [BulletItem "b"].
Proof.
  exact (proj1 (inputs_compose ["# A"; "```"; "x"; "```"] ["- b"; "```"; "y"]
                  eq_refl)).
Defined.

(** ** Inputs without fence lines *)

Lemma process_lines_no_fence (st : state) (lines : list string) :
  in_code_block st = false -> no_fence lines ->
  process_lines st lines =
  mkState (doc st ++ map classify lines) false (code_block_content st).
Proof.
  revert st; induction lines as [|l lines IH]; intros st Hin Hall.
  - simpl. rewrite app_nil_r. now destruct st; simpl in *; subst.
  - inversion Hall as [|? ? Hl Hall']; subst.
    change (process_lines st (l :: lines))
      with (process_lines (process_line st l) lines).
    rewrite (process_line_plain _ _ Hin Hl), IH by (simpl; auto).
    cbn [doc code_block_content map]. now rewrite <- app_assoc.
Qed.

(** X4.  The conversion of an input without fence lines completes exactly
    when the library accepts the block of every line; the document then has
    one block per line, in the order of the lines, each the classification
    of its line alone: no line changes what another line becomes. *)
Theorem no_fence_blocks (lines : list string) :
  no_fence lines ->
  run_lines init lines =
    (if forallb block_ok (map classify lines)
     then Ok (mkState (map classify lines) false [])
     else Raise ValueError)
  /\ (forall final, run_lines init lines = Ok final ->
        doc final = map classify lines
        /\ List.length (doc final) = List.length lines
        /\ (forall pre l post, lines = pre ++ l :: post ->
              nth_error (doc final) (List.length pre) = Some (classify l))).
Proof.
  intros Hall.
  pose proof (process_lines_no_fence init lines eq_refl Hall) as Hp.
  cbn [init doc code_block_content app] in Hp. fold init in Hp.
  assert (Hcalls : calls init lines = map classify lines).
  { pose proof (process_lines_calls init lines) as H.
    rewrite Hp in H. exact (eq_sym H). }
  split; [now rewrite run_lines_spec, Hcalls, Hp|].
  intros final Hfinal.
  assert (Hdoc : doc final = map classify lines).
  { rewrite (run_lines_ok _ _ _ Hfinal), Hp. reflexivity. }
  split; [exact Hdoc|]. split.
  - now rewrite Hdoc, length_map.
  - intros pre l post ->. rewrite Hdoc, map_app, nth_error_app2;
      rewrite length_map; [|lia].
    now rewrite Nat.sub_diag.
Qed.

Lemma no_fence_blocks_witness :
  run_lines init ["## Vision"; "---"; "- fair prices"; "2. verify"; ""] =
  Ok (mkState [Heading 2 "Vision"; Rule; BulletItem "fair prices";
               NumberedItem "verify"; BlankLine] false []).
Proof.
  exact (proj1 (no_fence_blocks
                  ["## Vision"; "---"; "- fair prices"; "2. verify"; ""]
                  ltac:(repeat constructor))).
Defined.

(** ** From a block back to its line *)

Lemma contains_append_l (sub x t : string) :
  contains sub t = true -> contains sub (x ++ t) = true.
Proof.
  intros H. induction x as [|c x IH]; [exact H|].
  change (String c x ++ t)%string with (String c (x ++ t)).
  now rewrite contains_tail, IH, orb_true_r.
Qed.

Lemma contains_append_l_false (sub x t : string) :
  contains sub (x ++ t) = false -> contains sub t = false.
Proof.
  intros H. destruct (contains sub t) eqn:E; [|reflexivity].
  now rewrite (contains_append_l sub x t E) in H.
Qed.

Lemma drop_numbered (ds t : string) :
  drop (String.length ds + 1 + 1) (ds ++ ". " ++ t) = t.
Proof. induction ds as [|c ds IH]; [reflexivity | exact IH]. Qed.

(** Every line is classified by the rule of the branch that takes it. *)
Lemma classify_classified (line : string) : classified line (classify line).
Proof.
  unfold classify.
  destruct (startswith line "# ") eqn:H1.
  { apply cl_heading1. exact (startswith_app _ _ H1). }
  destruct (startswith line "## ") eqn:H2.
  { apply cl_heading2. exact (startswith_app _ _ H2). }
  destruct (startswith line "### ") eqn:H3.
  { apply cl_heading3. exact (startswith_app _ _ H3). }
  destruct (startswith line "#### ") eqn:H4.
  { apply cl_heading4. exact (startswith_app _ _ H4). }
  destruct (startswith line "---") eqn:Hr; [now apply cl_rule|].
  destruct (contains "**" line) eqn:Hb; [now apply cl_bold|].
  destruct (startswith line "- ") eqn:Hd.
  { apply cl_bullet; [exact (startswith_app _ _ Hd) | exact Hb]. }
  destruct (match_numbered line) eqn:Hm.
  { destruct (proj1 (match_numbered_iff line) Hm) as (ds & t & Hne & Hds & Heq).
    assert (E : drop (match find_space line with
                      | Some k => k + 1
                      | None => 0
                      end) line = t).
    { rewrite Heq, (find_space_app ds t Hds). cbn beta iota.
      apply drop_numbered. }
    rewrite E. now apply (cl_numbered line ds t). }
  rewrite strip_truthy.
  destruct (all_chars is_space line) eqn:Hs; cbn [negb].
  - now apply cl_blank.
  - now apply cl_paragraph.
Qed.

(** Where a block of the document comes from: a line of the input that is
    no fence line, or a fence. *)
Lemma block_source (st : state) (lines : list string) (b : Block) :
  In b (doc (process_lines st lines)) ->
  In b (doc st)
  \/ (exists l, In l lines /\ startswith l "```" = false /\ b = classify l)
  \/ (exists t, b = CodeBlock t).
Proof.
  revert st; induction lines as [|l lines IH]; intros st H; [now left|].
  change (process_lines st (l :: lines))
    with (process_lines (process_line st l) lines) in H.
  destruct (IH _ H) as [Hin | [(l' & Hl' & Hf & Hb) | Hc]].
  - unfold process_line in Hin.
    destruct (startswith l "```") eqn:Hf, (in_code_block st);
      cbn [doc] in Hin; auto.
    + destruct (code_block_content st); auto.
      apply in_app_or in Hin as [Hin | [<- | []]]; eauto.
    + apply in_app_or in Hin as [Hin | [<- | []]]; auto.
      right; left. exists l. repeat split; auto. now left.
  - right; left. exists l'. repeat split; auto. now right.
  - now right; right.
Qed.

Lemma block_of_line (lines : list string) (b : Block) :
  In b (doc (process_lines init lines)) ->
  (forall t, b <> CodeBlock t) ->
  exists l, In l lines /\ startswith l "```" = false /\ classified l b.
Proof.
  intros H Hnc.
  destruct (block_source init lines b H) as [[] | [(l & Hl & Hf & ->) | (t & ->)]].
  - exists l. repeat split; auto. apply classify_classified.
  - now destruct (Hnc t).
Qed.

(** X5.  Whatever the input, every heading of the document has a level
    from 1 to 4 and was made from an input line that is that many hash
    marks, one space and the heading's text: the text is the rest of the
    line, unchanged. *)
Theorem headings_come_from_lines (lines : list string) (lv : nat)
        (t : string) :
  In (Heading lv t) (doc (process_lines init lines)) ->
  1 <= lv <= 4 /\ In (hashes lv ++ " " ++ t)%string lines.
Proof.
  intros H.
  destruct (block_of_line lines _ H) as (l & Hl & _ & Hc); [discriminate|].
  inversion Hc; subst; split; try lia; exact Hl.
Qed.

Lemma headings_come_from_lines_witness :
  1 <= 3 <= 4 /\ In "### Roadmap" ["intro"; "### Roadmap"].
Proof.
  exact (headings_come_from_lines ["intro"; "### Roadmap"] 3 "Roadmap"
           (or_intror (or_introl eq_refl))).
Defined.

(** X6.  Every bullet item of the document was made from an input line
    ["- "] followed by its text, and every numbered item from an input line
    of digits, a period, a space and its text; neither text contains
    ["**"].  The digits of a numbered line are not kept. *)
Theorem list_items_come_from_lines (lines : list string) (t : string) :
  (In (BulletItem t) (doc (process_lines init lines)) ->
   In ("- " ++ t)%string lines /\ contains "**" t = false)
  /\ (In (NumberedItem t) (doc (process_lines init lines)) ->
      exists ds, ds <> "" /\ all_chars is_digit ds = true
                 /\ In (ds ++ ". " ++ t)%string lines
                 /\ contains "**" t = false).
Proof.
  split; intros H.
  - destruct (block_of_line lines _ H) as (l & Hl & _ & Hc); [discriminate|].
    inversion Hc as [| | | | | |t' Heq Hb| | |]; subst.
    split; [exact Hl|]. exact (contains_append_l_false _ "- " _ Hb).
  - destruct (block_of_line lines _ H) as (l & Hl & _ & Hc); [discriminate|].
    inversion Hc as [| | | | | | |ds t' Hne Hds Heq Hb| |]; subst.
    exists ds. repeat split; auto.
    apply (contains_append_l_false _ ". ").
    exact (contains_append_l_false _ ds _ Hb).
Qed.

Lemma list_items_come_from_lines_witness :
  (In "- eggs" ["- eggs"; "10. ship"] /\ contains "**" "eggs" = false)
  /\ exists ds, ds <> "" /\ all_chars is_digit ds = true
                /\ In (ds ++ ". " ++ "ship")%string ["- eggs"; "10. ship"]
                /\ contains "**" "ship" = false.
Proof.
  split.
  - exact (proj1 (list_items_come_from_lines ["- eggs"; "10. ship"] "eggs")
             (or_introl eq_refl)).
  - exact (proj2 (list_items_come_from_lines ["- eggs"; "10. ship"] "ship")
             (or_intror (or_introl eq_refl))).
Defined.

(** X7.  Every paragraph of the document has the text of an input line,
    complete and unchanged, with a character that is no whitespace and
    without ["**"]; every mixed paragraph has at least two runs, bold at
    the odd indices, whose texts joined with ["**"] are an input line; and
    every blank line stands for an input line of whitespace only. *)
Theorem paragraphs_come_from_lines (lines : list string) :
  (forall t, In (Paragraph t) (doc (process_lines init lines)) ->
     In t lines /\ all_chars is_space t = false /\ contains "**" t = false)
  /\ (forall runs, In (MixedParagraph runs) (doc (process_lines init lines)) ->
        In (join "**" (map fst runs)) lines
        /\ 2 <= List.length runs
        /\ (forall i p b, nth_error runs i = Some (p, b) -> b = Nat.odd i))
  /\ (In BlankLine (doc (process_lines init lines)) ->
      exists l, In l lines /\ all_chars is_space l = true).
Proof.
  assert (Hsep : "**" <> "") by discriminate.
  split; [|split].
  - intros t H.
    destruct (block_of_line lines _ H) as (l & Hl & _ & Hc); [discriminate|].
    inversion Hc; subst. now repeat split.
  - intros runs H.
    destruct (block_of_line lines _ H) as (l & Hl & _ & Hc); [discriminate|].
    inversion Hc as [| | | | |Hb Hr| | | |]; subst.
    unfold bold_runs. rewrite runs_from_texts, (split_join "**" Hsep).
    split; [exact Hl|]. split.
    + rewrite <- (length_map fst), runs_from_texts, split_length.
      pose proof (count_contains "**" Hsep l Hb). lia.
    + intros i p b Hnth. rewrite runs_from_nth in Hnth.
      destruct (nth_error (split "**" l) i); simpl in Hnth; congruence.
  - intros H.
    destruct (block_of_line lines _ H) as (l & Hl & _ & Hc); [discriminate|].
    inversion Hc; subst. now exists l.
Qed.

Lemma paragraphs_come_from_lines_witness :
  In (join "**" (map fst [("a ", false); ("b", true); ("", false)]))
     ["a **b**"; " x "]
  /\ In " x " ["a **b**"; " x "].
Proof.
  destruct (paragraphs_come_from_lines ["a **b**"; " x "]) as (Hp & Hm & _).
  split.
  - exact (proj1 (Hm [("a ", false); ("b", true); ("", false)]
                    (or_introl eq_refl))).
  - exact (proj1 (Hp " x " (or_intror (or_introl eq_refl)))).
Defined.

(** X8.  Every code block of the document comes from a fence of the input:
    an opening fence line met outside a fence, then one or more lines that
    are no fence lines, then a closing fence line; its text is these lines
    joined with newlines, whatever they look like. *)
Theorem code_blocks_come_from_fences (lines : list string) (t : string) :
  In (CodeBlock t) (doc (process_lines init lines)) ->
  exists pre f1 body f2 post,
    lines = pre ++ f1 :: body ++ f2 :: post
    /\ in_code_block (process_lines init pre) = false
    /\ startswith f1 "```" = true
    /\ no_fence body /\ body <> []
    /\ startswith f2 "```" = true
    /\ t = join nl body.
Proof.
  induction lines as [|x l IH] using rev_ind; [intros []|].
  assert (Hext : In (CodeBlock t) (doc (process_lines init l)) ->
                 exists pre f1 body f2 post,
                   l ++ [x] = pre ++ f1 :: body ++ f2 :: post
                   /\ in_code_block (process_lines init pre) = false
                   /\ startswith f1 "```" = true
                   /\ no_fence body /\ body <> []
                   /\ startswith f2 "```" = true
                   /\ t = join nl body).
  { intros H.
    destruct (IH H) as (pre & f1 & body & f2 & post & -> & Hrest).
    exists pre, f1, body, f2, (post ++ [x]). split; [|exact Hrest].
    rewrite <- app_assoc. cbn [app]. rewrite <- app_assoc. reflexivity. }
  rewrite process_lines_app.
  change (process_lines (process_lines init l) [x])
    with (process_line (process_lines init l) x).
  unfold process_line.
  destruct (startswith x "```") eqn:Hf,
           (in_code_block (process_lines init l)) eqn:Hin; cbn [doc];
    try exact Hext.
  - destruct (open_fence_shape l Hin)
      as (pre & f & body & Hl & Hpre & Hff & Hb & _ & Hc).
    rewrite Hc. destruct body as [|b0 body]; [exact Hext|].
    intros H. apply in_app_or in H as [H | [H | []]]; [now apply Hext|].
    injection H as <-.
    exists pre, f, (b0 :: body), x, []. rewrite Hl.
    repeat split; auto; try discriminate.
    rewrite <- app_assoc. reflexivity.
  - intros H. apply in_app_or in H as [H | [H | []]]; [now apply Hext|].
    pose proof (classify_classified x) as Hc. rewrite H in Hc. inversion Hc.
Qed.

Lemma code_blocks_come_from_fences_witness :
  exists pre f1 body f2 post,
    ["x"; "```py"; "# not a heading"; "```"; "y"] =
      pre ++ f1 :: body ++ f2 :: post
    /\ in_code_block (process_lines init pre) = false
    /\ startswith f1 "```" = true
    /\ no_fence body /\ body <> []
    /\ startswith f2 "```" = true
    /\ "# not a heading" = join nl body.
Proof.
  exact (code_blocks_come_from_fences
           ["x"; "```py"; "# not a heading"; "```"; "y"] "# not a heading"
           (or_intror (or_introl eq_refl))).
Defined.

(** ** Rules and indented lines *)

(** X9.  Outside a code fence every line that begins with ["---"] adds a
    rule, whatever follows the three dashes (more dashes, text, even
    ["**"]), and nothing of the line is kept; and every rule of a document
    comes from such a line. *)
Theorem rule_lines :
  (forall (st : state) (line : string),
      in_code_block st = false -> startswith line "---" = true ->
      doc (process_line st line) = doc st ++ [Rule])
  /\ (forall lines : list string,
         In Rule (doc (process_lines init lines)) ->
         exists l, In l lines /\ startswith l "---" = true).
Proof.
  split.
  - intros st line Hin Hr.
    pose proof (startswith_app _ _ Hr) as Heq.
    change (String.length "---") with 3 in Heq.
    remember (drop 3 line) as t eqn:Ht. clear Ht Hr. subst line.
    now rewrite process_line_plain.
  - intros lines H.
    destruct (block_of_line lines _ H) as (l & Hl & _ & Hc); [discriminate|].
    inversion Hc; subst. now exists l.
Qed.

Lemma rule_lines_witness :
  doc (process_line init "--- **end** ---") = [Rule]
  /\ exists l, In l ["a"; "----"] /\ startswith l "---" = true.
Proof.
  split.
  - exact (proj1 rule_lines init "--- **end** ---" eq_refl eq_refl).
  - exact (proj2 rule_lines ["a"; "----"] (or_intror (or_introl eq_refl))).
Defined.

Lemma space_not_marker (c : ascii) :
  is_space c = true ->
  Ascii.eqb "#" c = false /\ Ascii.eqb "-" c = false
  /\ Ascii.eqb "`" c = false /\ is_digit c = false.
Proof.
  destruct c as [[] [] [] [] [] [] [] []]; intros H;
    try discriminate H; repeat split.
Qed.

Lemma all_space_no_bold (s : string) :
  all_chars is_space s = true -> contains "**" s = false.
Proof.
  induction s as [|c s IH]; intros H; [reflexivity|].
  cbn [all_chars] in H. apply andb_prop in H as [Hc Hs].
  rewrite contains_tail, (IH Hs), orb_false_r. cbn [startswith].
  destruct (Ascii.eqb_spec "*" c) as [<-|]; [discriminate Hc | reflexivity].
Qed.

(** X10.  Outside a code fence a line that begins with a whitespace
    character is never made a heading, a rule, a list item or a fence
    line, whatever comes after the indentation: it is made a mixed
    paragraph when it contains ["**"], a blank line when it is all
    whitespace, and else a paragraph with the line as it is, indentation
    included.  The blank line is always added; the paragraph is added
    unless the library refuses the line's text, when the iteration
    raises. *)
Theorem indented_lines (st : state) (c : ascii) (r : string) :
  in_code_block st = false ->
  is_space c = true ->
  classify (String c r) =
    (if contains "**" (String c r)
     then MixedParagraph (bold_runs (String c r))
     else if all_chars is_space (String c r) then BlankLine
          else Paragraph (String c r))
  /\ run_line st (String c r) =
     if all_chars is_space (String c r) || xml_text (String c r)
     then Ok (mkState (doc st ++ [classify (String c r)]) false
                      (code_block_content st))
     else Raise ValueError.
Proof.
  intros Hin Hc.
  destruct (space_not_marker c Hc) as (Hh & Hd & Hq & Hdig).
  assert (Hcl : classify (String c r) =
                if contains "**" (String c r)
                then MixedParagraph (bold_runs (String c r))
                else if all_chars is_space (String c r) then BlankLine
                     else Paragraph (String c r)).
  { unfold classify. cbn [startswith match_numbered].
    rewrite Hh, Hd, Hdig. cbn [andb]. rewrite strip_truthy.
    now destruct (contains "**" (String c r)),
                 (all_chars is_space (String c r)). }
  split; [exact Hcl|].
  rewrite run_line_plain; [|assumption|cbn [startswith]; now rewrite Hq].
  rewrite Hcl at 1.
  destruct (all_chars is_space (String c r)) eqn:Hs.
  - now rewrite (all_space_no_bold _ Hs).
  - cbn [orb]. destruct (contains "**" (String c r));
      [now rewrite bold_runs_ok | reflexivity].
Qed.

Lemma indented_lines_witness :
  run_line init "  - nested item" =
  Ok (mkState [Paragraph "  - nested item"] false []).
Proof.
  exact (proj2 (indented_lines init " " " - nested item" eq_refl eq_refl)).
Defined.

(** * From the file's content to its lines *)

Lemma split_char_cons (a c : ascii) (r : string) :
  split (String a "") (String c r) =
  if Ascii.eqb a c then "" :: split (String a "") r
  else cons_head c (split (String a "") r).
Proof.
  unfold split. cbn [String.length split_fuel startswith].
  rewrite andb_true_r. cbn [drop Nat.sub]. reflexivity.
Qed.

Lemma split_char_plain (a : ascii) (p : string) :
  contains (String a "") p = false -> split (String a "") p = [p].
Proof.
  induction p as [|c r IH]; intros H; [reflexivity|].
  rewrite contains_tail in H. apply orb_false_elim in H as [Hc Hr].
  cbn [startswith] in Hc. rewrite andb_true_r in Hc.
  now rewrite split_char_cons, Hc, IH.
Qed.

Lemma split_char_app (a : ascii) (x y : string) :
  split (String a "") (x ++ String a y) =
  split (String a "") x ++ split (String a "") y.
Proof.
  induction x as [|c r IH].
  - change ("" ++ String a y)%string with (String a y).
    now rewrite split_char_cons, Ascii.eqb_refl.
  - change (String c r ++ String a y)%string with (String c (r ++ String a y)).
    rewrite !split_char_cons, IH. destruct (Ascii.eqb a c); [reflexivity|].
    pose proof (split_fuel_nonempty (String a "") (String.length r) r) as Hne.
    fold (split (String a "") r) in Hne.
    now destruct (split (String a "") r).
Qed.

Lemma split_join_lines (a : ascii) (ls : list string) :
  ls <> [] ->
  Forall (fun l => contains (String a "") l = false) ls ->
  split (String a "") (join (String a "") ls) = ls.
Proof.
  induction ls as [|p ls IH]; intros Hne Hall; [now destruct Hne|].
  inversion Hall as [|? ? Hp Hls]; subst.
  destruct ls as [|q ls]; [now apply split_char_plain|].
  change (join (String a "") (p :: q :: ls))
    with (p ++ String a (join (String a "") (q :: ls)))%string.
  rewrite split_char_app, split_char_plain by assumption.
  rewrite IH by (discriminate || assumption). reflexivity.
Qed.

(** X11.  The loop reads the content cut at every newline: there is one
    line more than there are newlines, no line contains a newline, and the
    lines joined with newlines are the content.  The other way round, the
    document of lines joined with newlines is the document the loop builds
    from these lines. *)
Theorem content_and_lines :
  (forall md_content : string,
      List.length (split nl md_content) = S (count nl md_content)
      /\ Forall (fun l => contains nl l = false) (split nl md_content)
      /\ join nl (split nl md_content) = md_content)
  /\ (forall lines : list string,
         lines <> [] ->
         Forall (fun l => contains nl l = false) lines ->
         convert_markdown_to_docx (join nl lines) =
         doc (process_lines init lines)).
Proof.
  assert (Hsep : nl <> "") by discriminate.
  split.
  - intros c. split; [apply split_length|]. split.
    + now apply split_pieces.
    + now apply split_join.
  - intros lines Hne Hall. unfold convert_markdown_to_docx.
    pose proof (split_join_lines (ascii_of_nat 10) lines Hne Hall) as E.
    fold nl in E. now rewrite E.
Qed.

Lemma content_and_lines_witness :
  convert_markdown_to_docx (join nl ["# A"; ""; "- b"]) =
  [Heading 1 "A"; BlankLine; BulletItem "b"].
Proof.
  exact (proj2 content_and_lines ["# A"; ""; "- b"]
           ltac:(discriminate) ltac:(repeat constructor)).
Defined.

(** X12.  When the content before a newline leaves no fence open, the
    document of the whole content is the document of what is before the
    newline followed by the document of what is after it.  So a newline at
    the end of such a content adds one blank line at the end of the
    document, and the empty content gives a document of one blank line. *)
Theorem contents_compose :
  (forall a b : string,
      in_code_block (process_lines init (split nl a)) = false ->
      convert_markdown_to_docx (a ++ nl ++ b) =
      convert_markdown_to_docx a ++ convert_markdown_to_docx b)
  /\ (forall a : string,
         in_code_block (process_lines init (split nl a)) = false ->
         convert_markdown_to_docx (a ++ nl) =
         convert_markdown_to_docx a ++ [BlankLine])
  /\ convert_markdown_to_docx "" = [BlankLine].
Proof.
  assert (Hcomp : forall a b,
             in_code_block (process_lines init (split nl a)) = false ->
             convert_markdown_to_docx (a ++ nl ++ b) =
             convert_markdown_to_docx a ++ convert_markdown_to_docx b).
  { intros a b Hin. unfold convert_markdown_to_docx.
    pose proof (split_char_app (ascii_of_nat 10) a b) as E.
    fold nl in E. change (String (ascii_of_nat 10) b) with (nl ++ b)%string in E.
    rewrite E. now rewrite (process_lines_closed_app _ _ Hin). }
  split; [exact Hcomp|]. split; [|reflexivity].
  intros a Hin. exact (Hcomp a "" Hin).
Qed.

Lemma contents_compose_witness :
  convert_markdown_to_docx ("```" ++ nl ++ "x" ++ nl ++ "```" ++ nl) =
  [CodeBlock "x"; BlankLine].
Proof.
  exact (proj1 (proj2 contents_compose)
           ("```" ++ nl ++ "x" ++ nl ++ "```")%string eq_refl).
Defined.

(** * The styles *)

Section StylesFacts.

Variable resolve : string -> option nat.

Lemma style_font_snd (key : string) (f : font -> font) (fs : fonts) :
  snd (style_font resolve key f fs) =
  match resolve key with
  | Some _ => None
  | None => Some KeyError
  end.
Proof. unfold style_font. now destruct (resolve key). Qed.

Lemma style_font_fst (key : string) (f : font -> font) (fs : fonts)
      (x : nat) :
  fst (style_font resolve key f fs) x =
  match resolve key with
  | Some r => if Nat.eqb x r then f (fs x) else fs x
  | None => fs x
  end.
Proof.
  unfold style_font. destruct (resolve key) as [r|]; [|reflexivity].
  cbn [fst]. destruct (Nat.eqb_spec x r) as [->|]; reflexivity.
Qed.

Lemma seq_ok (m1 m2 : fonts -> fonts * option error) (fs : fonts) :
  snd (m1 fs) = None -> (m1 ;; m2) fs = m2 (fst (m1 fs)).
Proof. unfold seq. destruct (m1 fs) as [fs' [e|]]; simpl; congruence. Qed.

Lemma seq_raise (m1 m2 : fonts -> fonts * option error) (fs : fonts)
      (e : error) :
  snd (m1 fs) = Some e -> (m1 ;; m2) fs = (fst (m1 fs), Some e).
Proof.
  unfold seq. destruct (m1 fs) as [fs' [e'|]]; simpl; congruence.
Qed.

(** A sequence of statements leaves a style alone when each part does. *)
Lemma seq_frame (P : font -> font -> Prop)
      (m1 m2 : fonts -> fonts * option error) (x : nat) :
  (forall v, P v v) ->
  (forall u v w, P u v -> P v w -> P u w) ->
  (forall fs, P (fs x) (fst (m1 fs) x)) ->
  (forall fs, P (fs x) (fst (m2 fs) x)) ->
  forall fs, P (fs x) (fst ((m1 ;; m2) fs) x).
Proof.
  intros Hrefl Htrans H1 H2 fs. unfold seq.
  specialize (H1 fs). destruct (m1 fs) as [fs' [e|]]; cbn [fst] in *.
  - exact H1.
  - exact (Htrans _ _ _ H1 (H2 fs')).
Qed.

Lemma setup_styles_frame_gen (P : font -> font -> Prop) (x : nat) :
  (forall v, P v v) ->
  (forall u v w, P u v -> P v w -> P u w) ->
  (forall v, P v (name_size "Arial" 11 v)) \/
  (forall k, In k ["Normal"; "List Bullet"; "List Number"] ->
             resolve k <> Some x) ->
  (forall k, In k bold_names -> resolve k <> Some x) ->
  forall fs, P (fs x) (fst (setup_document_styles resolve fs) x).
Proof.
  intros Hrefl Htrans Hplain Hbold.
  assert (Hb : forall k f, In k bold_names ->
                 forall fs, P (fs x) (fst (style_font resolve k f fs) x)).
  { intros k f Hk fs. rewrite style_font_fst.
    destruct (resolve k) as [r|] eqn:E; [|apply Hrefl].
    destruct (Nat.eqb_spec x r) as [->|]; [|apply Hrefl].
    now destruct (Hbold k Hk). }
  assert (Hp : forall k, In k ["Normal"; "List Bullet"; "List Number"] ->
                 forall fs,
                   P (fs x) (fst (style_font resolve k (name_size "Arial" 11) fs) x)).
  { intros k Hk fs. rewrite style_font_fst.
    destruct (resolve k) as [r|] eqn:E; [|apply Hrefl].
    destruct (Nat.eqb_spec x r) as [->|]; [|apply Hrefl].
    destruct Hplain as [Hplain | Hplain]; [|now destruct (Hplain k Hk)].
    simpl in Hk. destruct Hk as [<- | [<- | [<- | []]]]; apply Hplain. }
  unfold setup_document_styles.
  repeat (apply seq_frame; [exact Hrefl | exact Htrans | |]);
    try (apply Hb; simpl; tauto); apply Hp; simpl; tauto.
Qed.


End StylesFacts.


(** X14.  Success or failure, [setup_document_styles] changes the font of
    a style only if one of its seven keys finds that style, and the bold
    attribute of a style only if one of the keys ['Title'], ['Heading 1'],
    ['Heading 2'], ['Heading 3'] finds it. *)
Theorem setup_styles_frame (resolve : string -> option nat) (fs : fonts)
        (x : nat) :
  ((forall k, In k styled_names -> resolve k <> Some x) ->
   fst (setup_document_styles resolve fs) x = fs x)
  /\ ((forall k, In k bold_names -> resolve k <> Some x) ->
      font_bold (fst (setup_document_styles resolve fs) x) = font_bold (fs x)).
Proof.
  split; intros H.
  - symmetry.
    apply (setup_styles_frame_gen resolve (fun u v => u = v) x);
      [reflexivity | intros u v w; congruence | | ].
    + right. intros k Hk. apply H. simpl in *. tauto.
    + intros k Hk. apply H. simpl in *. tauto.
  - symmetry.
    apply (setup_styles_frame_gen resolve
             (fun u v => font_bold u = font_bold v) x);
      [reflexivity | intros u v w; congruence | | exact H].
    left. reflexivity.
Qed.

Lemma setup_styles_frame_witness :
  fst (setup_document_styles sample_resolve sample_fonts) 7 = sample_fonts 7
  /\ font_bold (fst (setup_document_styles sample_resolve sample_fonts) 4) =
     Some false.
Proof.
  split.
  - apply (proj1 (setup_styles_frame sample_resolve sample_fonts 7)).
    intros k Hk. simpl in Hk.
    repeat match type of Hk with
           | _ \/ _ => destruct Hk as [<- | Hk]; [discriminate|]
           end.
    destruct Hk.
  - apply (proj2 (setup_styles_frame sample_resolve sample_fonts 4)).
    intros k Hk. simpl in Hk.
    repeat match type of Hk with
           | _ \/ _ => destruct Hk as [<- | Hk]; [discriminate|]
           end.
    destruct Hk.
Defined.

(** X15.  When each of the seven keys finds a style,
    [setup_document_styles] returns normally, and running it again changes
    nothing.  When the seven styles found are different ones, they end with
    the font Arial, the title at 24 points and bold, the headings 1 to 3 at
    18, 16 and 14 points and bold, the other three at 11 points with the
    bold attribute they had. *)
Theorem setup_styles_outcome (resolve : string -> option nat) (fs : fonts)
        (r1 r2 r3 r4 r5 r6 r7 : nat) :
  resolve "Title" = Some r1 -> resolve "Heading 1" = Some r2 ->
  resolve "Heading 2" = Some r3 -> resolve "Heading 3" = Some r4 ->
  resolve "Normal" = Some r5 -> resolve "List Bullet" = Some r6 ->
  resolve "List Number" = Some r7 ->
  snd (setup_document_styles resolve fs) = None
  /\ (forall x,
        fst (setup_document_styles resolve
               (fst (setup_document_styles resolve fs))) x =
        fst (setup_document_styles resolve fs) x)
  /\ (NoDup [r1; r2; r3; r4; r5; r6; r7] ->
      let fs' := fst (setup_document_styles resolve fs) in
      fs' r1 = mkFont (Some "Arial") (Some 24) (Some true)
      /\ fs' r2 = mkFont (Some "Arial") (Some 18) (Some true)
      /\ fs' r3 = mkFont (Some "Arial") (Some 16) (Some true)
      /\ fs' r4 = mkFont (Some "Arial") (Some 14) (Some true)
      /\ fs' r5 = mkFont (Some "Arial") (Some 11) (font_bold (fs r5))
      /\ fs' r6 = mkFont (Some "Arial") (Some 11) (font_bold (fs r6))
      /\ fs' r7 = mkFont (Some "Arial") (Some 11) (font_bold (fs r7))).
Proof.
  intros H1 H2 H3 H4 H5 H6 H7.
  assert (Hrun : forall fs0,
             setup_document_styles resolve fs0 =
             style_font resolve "List Number" (name_size "Arial" 11)
               (fst (style_font resolve "List Bullet" (name_size "Arial" 11)
               (fst (style_font resolve "Normal" (name_size "Arial" 11)
               (fst (style_font resolve "Heading 3" (name_size_bold "Arial" 14)
               (fst (style_font resolve "Heading 2" (name_size_bold "Arial" 16)
               (fst (style_font resolve "Heading 1" (name_size_bold "Arial" 18)
               (fst (style_font resolve "Title" (name_size_bold "Arial" 24)
                       fs0))))))))))))).
  { intros fs0. unfold setup_document_styles.
    rewrite seq_ok by now rewrite style_font_snd, H1.
    rewrite seq_ok by now rewrite style_font_snd, H2.
    rewrite seq_ok by now rewrite style_font_snd, H3.
    rewrite seq_ok by now rewrite style_font_snd, H4.
    rewrite seq_ok by now rewrite style_font_snd, H5.
    rewrite seq_ok by now rewrite style_font_snd, H6.
    reflexivity. }
  assert (Hpt : forall fs0 x,
             fst (setup_document_styles resolve fs0) x =
             (if Nat.eqb x r7 then name_size "Arial" 11 else fun v => v)
             ((if Nat.eqb x r6 then name_size "Arial" 11 else fun v => v)
             ((if Nat.eqb x r5 then name_size "Arial" 11 else fun v => v)
             ((if Nat.eqb x r4 then name_size_bold "Arial" 14 else fun v => v)
             ((if Nat.eqb x r3 then name_size_bold "Arial" 16 else fun v => v)
             ((if Nat.eqb x r2 then name_size_bold "Arial" 18 else fun v => v)
             ((if Nat.eqb x r1 then name_size_bold "Arial" 24 else fun v => v)
                (fs0 x)))))))).
  { intros fs0 x. rewrite Hrun.
    rewrite !style_font_fst, H1, H2, H3, H4, H5, H6, H7.
    destruct (Nat.eqb x r1), (Nat.eqb x r2), (Nat.eqb x r3), (Nat.eqb x r4),
      (Nat.eqb x r5), (Nat.eqb x r6), (Nat.eqb x r7); reflexivity. }
  split; [|split].
  - rewrite Hrun. now rewrite style_font_snd, H7.
  - intros x. rewrite (Hpt (fst (setup_document_styles resolve fs))), (Hpt fs).
    destruct (Nat.eqb x r1), (Nat.eqb x r2), (Nat.eqb x r3), (Nat.eqb x r4),
      (Nat.eqb x r5), (Nat.eqb x r6), (Nat.eqb x r7); reflexivity.
  - intros Hnd fs'. subst fs'.
    repeat match goal with
           | H : NoDup (_ :: _) |- _ => inversion H; clear H; subst
           end.
    repeat split; rewrite Hpt; rewrite ?Nat.eqb_refl;
      repeat match goal with
             | |- context [Nat.eqb ?a ?b] =>
                 destruct (Nat.eqb_spec a b);
                 [exfalso; subst; simpl in *; tauto|]
             end; reflexivity.
Qed.

Lemma setup_styles_outcome_witness :
  snd (setup_document_styles sample_resolve sample_fonts) = None
  /\ fst (setup_document_styles sample_resolve sample_fonts) 2 =
     mkFont (Some "Arial") (Some 16) (Some true)
  /\ fst (setup_document_styles sample_resolve sample_fonts) 5 =
     mkFont (Some "Arial") (Some 11) (Some false).
Proof.
  destruct (setup_styles_outcome sample_resolve sample_fonts 0 1 2 3 4 5 6
              eq_refl eq_refl eq_refl eq_refl eq_refl eq_refl eq_refl)
    as (Hs & _ & Hout).
  split; [exact Hs|].
  assert (Hnd : NoDup [0; 1; 2; 3; 4; 5; 6]).
  { repeat constructor; simpl; intuition discriminate. }
  destruct (Hout Hnd) as (_ & _ & H3 & _ & _ & H6 & _).
  split; [exact H3 | exact H6].
Defined.

(** * The library's check and the loop *)

Lemma all_chars_app_r (f : ascii -> bool) (x y : string) :
  all_chars f (x ++ y) = true -> all_chars f y = true.
Proof. rewrite all_chars_app. intros H. now apply andb_prop in H. Qed.

(** The library accepts the block of a line it accepts. *)
Lemma classify_ok (line : string) :
  xml_text line = true -> block_ok (classify line) = true.
Proof.
  intros H. pose proof (classify_classified line) as Hc.
  inversion Hc as [t E|t E|t E|t E| | |t E _|ds t _ _ E _| |];
    try reflexivity; cbn [block_ok]; unfold xml_text in *.
  - rewrite E in H. exact (all_chars_app_r _ _ _ H).
  - rewrite E in H. exact (all_chars_app_r _ _ _ H).
  - rewrite E in H. exact (all_chars_app_r _ _ _ H).
  - rewrite E in H. exact (all_chars_app_r _ _ _ H).
  - change (block_ok (MixedParagraph (bold_runs line)) = true).
    rewrite bold_runs_ok. exact H.
  - rewrite E in H. exact (all_chars_app_r _ _ _ H).
  - rewrite E in H.
    exact (all_chars_app_r _ ". " _ (all_chars_app_r _ ds _ H)).
  - exact H.
Qed.

Lemma calls_ok (st : state) (lines : list string) :
  forallb xml_text lines = true ->
  forallb xml_text (code_block_content st) = true ->
  forallb block_ok (calls st lines) = true.
Proof.
  revert st; induction lines as [|l lines IH]; intros st Hl Hb; [reflexivity|].
  cbn [forallb] in Hl. apply andb_prop in Hl as [Hl Hls].
  cbn [calls]. rewrite forallb_app. apply andb_true_intro. split.
  - unfold call.
    destruct (startswith l "```"), (in_code_block st); try reflexivity.
    + destruct (code_block_content st) as [|b0 bs] eqn:E; [reflexivity|].
      cbn [forallb]. now rewrite code_block_ok, Hb.
    + cbn [forallb]. now rewrite classify_ok.
  - apply IH; [exact Hls|]. unfold process_line.
    destruct (startswith l "```"), (in_code_block st);
      cbn [code_block_content]; try assumption; try reflexivity.
    rewrite forallb_app, Hb. cbn [forallb]. now rewrite Hl.
Qed.

(** X16.  The conversion raises [ValueError] exactly when one of the
    paragraphs the loop hands to the library holds a character the library
    refuses; otherwise it builds the document of these paragraphs, in the
    state [process_lines] computes.  It completes on every content whose
    lines hold no such character. *)
Theorem conversion_completes_iff :
  (forall md_content : string,
      run_convert md_content =
      if forallb block_ok (convert_markdown_to_docx md_content)
      then Ok (convert_markdown_to_docx md_content)
      else Raise ValueError)
  /\ (forall (lines : list string) (st : state),
         run_lines init lines = Ok st ->
         st = process_lines init lines
         /\ forallb block_ok (doc st) = true)
  /\ (forall lines : list string,
         forallb xml_text lines = true ->
         run_lines init lines = Ok (process_lines init lines))
  /\ (forall md_content : string,
         xml_text md_content = true ->
         run_convert md_content = Ok (convert_markdown_to_docx md_content)).
Proof.
  assert (Hdoc : forall lines, doc (process_lines init lines) = calls init lines).
  { intros lines. now rewrite process_lines_calls. }
  assert (Hlines : forall lines,
             forallb xml_text lines = true ->
             run_lines init lines = Ok (process_lines init lines)).
  { intros lines H. rewrite run_lines_spec.
    now rewrite (calls_ok init lines H eq_refl). }
  split; [|split; [|split]].
  - intros c. unfold run_convert, convert_markdown_to_docx.
    rewrite run_lines_spec, <- Hdoc.
    now destruct (forallb block_ok (doc (process_lines init (split nl c)))).
  - intros lines st H. rewrite run_lines_spec in H.
    destruct (forallb block_ok (calls init lines)) eqn:E; [|discriminate].
    injection H as <-. split; [reflexivity|]. now rewrite Hdoc.
  - exact Hlines.
  - intros c H. unfold run_convert, convert_markdown_to_docx.
    rewrite Hlines; [reflexivity|].
    assert (Hsep : nl <> "") by discriminate.
    rewrite <- (split_join nl Hsep c) in H. unfold xml_text in H.
    now rewrite all_chars_join in H.
Qed.

Lemma conversion_completes_iff_witness :
  run_convert ("# A" ++ nl ++ "- b") = Ok [Heading 1 "A"; BulletItem "b"]
  /\ run_convert ("# A" ++ nl ++ String (ascii_of_nat 1) "b") =
     Raise ValueError.
Proof.
  split.
  - exact (proj2 (proj2 (proj2 conversion_completes_iff))
             ("# A" ++ nl ++ "- b")%string eq_refl).
  - exact (proj1 conversion_completes_iff
             ("# A" ++ nl ++ String (ascii_of_nat 1) "b")%string).
Defined.
